(** * dbseeder.programs: the WQP program (stations, results, batched sink)

    A shallow embedding of [src/dbseeder/programs.py] (class [WqpProgram]) and
    the properties of its identifier reconciler, row mapper, row updater,
    constructor and batched sink.

    Python data is modelled as follows.
    - [str] is [string]; a [dict] keyed by column names is a [gmap string _];
      a [set] of ids is a [gset string]; a [list] is a [list].
    - an exception is a value of [exn]; a call that may raise returns a
      [result].
    - floating point numbers are kept abstract: a type [F] with the zero test
      that decides truthiness and the text that [str.format] prints. *)

From Stdlib Require Import Ascii.
From stdpp Require Import gmap strings list fin_maps pretty.
From Equations Require Import Equations.

Local Open Scope string_scope.
Set Warnings "-register-all".

(** ** Exceptions and results *)

Inductive exn :=
| KeyError (key : string)
| IndexError
| TypeError
| AttributeError
| UnboundLocalError (name : string)
| Exception (msg : string)
| DriverError (msg : string).

Inductive result (A : Type) :=
| Ok (a : A)
| Raise (e : exn).
Arguments Ok {A} a.
Arguments Raise {A} e.

Definition result_bind {A B} (f : A → result B) (r : result A) : result B :=
  match r with
  | Ok a => f a
  | Raise e => Raise e
  end.

Definition result_map {A B} (f : A → B) (r : result A) : result B :=
  match r with
  | Ok a => Ok (f a)
  | Raise e => Raise e
  end.

#[global] Instance result_ret : MRet result := @Ok.
#[global] Instance result_fmap : FMap result := @result_map.
#[global] Instance result_mbind : MBind result := @result_bind.

(** [for x in xs: body x], where the body may raise: the first exception
    ends the loop. *)
Fixpoint for_each {A B} (body : A → result B) (xs : list A) : result (list B) :=
  match xs with
  | [] => Ok []
  | x :: rest =>
      match body x with
      | Raise e => Raise e
      | Ok y =>
          match for_each body rest with
          | Raise e => Raise e
          | Ok ys => Ok (y :: ys)
          end
      end
  end.

(** ** Python values carried by a row *)

Inductive value (F : Type) :=
| VNone
| VStr (s : string)
| VInt (n : Z)
| VFloat (f : F)
| VTuple (t : list (value F)).
Arguments VNone {F}.
Arguments VStr {F} s.
Arguments VInt {F} n.
Arguments VFloat {F} f.
Arguments VTuple {F} t.

(** ** Strings: the marker pattern, [str.format], paths *)

Module Str.

(** [wqx_re = re.compile('(_WQX)-')]: the pattern has no special character
    but the group, so it matches exactly the text [_WQX-]. *)
Definition wqx_marker : string := "_WQX-".

(** [wqx_re.search(s)] as a truth value: some position of [s] starts with
    the marker. *)
Fixpoint wqx_search (s : string) : bool :=
  match s with
  | EmptyString => false
  | String _ rest => String.prefix wqx_marker s || wqx_search rest
  end.

(** [re.sub(wqx_re, '-', s)]: the matches are taken from left to right
    without overlap and each one is replaced by a dash. [skip] counts the
    characters of the current match that are still to pass over. *)
Fixpoint wqx_sub_from (skip : nat) (s : string) : string :=
  match s with
  | EmptyString => EmptyString
  | String c rest =>
      match skip with
      | S k => wqx_sub_from k rest
      | O =>
          if String.prefix wqx_marker s
          then String "-"%char (wqx_sub_from 4 rest)
          else String c (wqx_sub_from 0 rest)
      end
  end.

Definition wqx_sub (s : string) : string := wqx_sub_from 0 s.

Definition is_digit (c : ascii) : bool :=
  let n := nat_of_ascii c in (48 <=? n)%nat && (n <=? 57)%nat.

Definition digit_of (c : ascii) : nat := nat_of_ascii c - 48.

(** [tmpl.format( *args )] for the replacement fields the templates of this
    module use: [{}] takes the next argument and [{d}], with one digit,
    takes argument [d]. A field without its argument raises [IndexError]
    ([None] here). The arguments are inserted as they are. *)
Fixpoint format_from (auto : nat) (tmpl : string) (args : list string)
  : option string :=
  match tmpl with
  | EmptyString => Some EmptyString
  | String c rest =>
      if Ascii.eqb c "{"%char then
        match rest with
        | String c1 rest1 =>
            if Ascii.eqb c1 "}"%char then
              match args !! auto, format_from (S auto) rest1 args with
              | Some a, Some r => Some (a +:+ r)
              | _, _ => None
              end
            else
              match rest1 with
              | String c2 rest2 =>
                  if is_digit c1 && Ascii.eqb c2 "}"%char then
                    match args !! digit_of c1, format_from auto rest2 args with
                    | Some a, Some r => Some (a +:+ r)
                    | _, _ => None
                    end
                  else String c <$> format_from auto rest args
              | EmptyString => String c <$> format_from auto rest args
              end
        | EmptyString => Some (String c EmptyString)
        end
      else String c <$> format_from auto rest args
  end.

Definition format (tmpl : string) (args : list string) : option string :=
  format_from 0 tmpl args.

(** [sep.join(parts)] *)
Definition join (sep : string) (parts : list string) : string :=
  String.concat sep parts.

(** [os.path.join(a, b)] on a POSIX system. *)
Definition path_join (a b : string) : string :=
  if String.prefix "/" b then b
  else if bool_decide (a = "") then b
  else if String.prefix "/" (String.rev a) then a +:+ b
  else a +:+ "/" +:+ b.

(** The characters before the first [sep] and the ones after it,
    [None] when [s] has no [sep]. Applied to a reversed path it scans the
    path from its end. *)
Fixpoint take_until (sep : ascii) (s : string) : string * option string :=
  match s with
  | EmptyString => (EmptyString, None)
  | String c rest =>
      if Ascii.eqb c sep then (EmptyString, Some rest)
      else let '(t, r) := take_until sep rest in (String c t, r)
  end.

(** [os.path.basename(p)]: what follows the last slash. *)
Definition basename (p : string) : string :=
  String.rev (take_until "/"%char (String.rev p)).1.

Fixpoint all_dots (s : string) : bool :=
  match s with
  | EmptyString => true
  | String c rest => Ascii.eqb c "."%char && all_dots rest
  end.

(** [os.path.splitext(p)[0]] for a [p] without a slash: the text before the
    last dot, unless only dots precede it. *)
Definition splitext_root (p : string) : string :=
  match take_until "."%char (String.rev p) with
  | (_, None) => p
  | (_, Some root_rev) => if all_dots root_rev then p else String.rev root_rev
  end.

End Str.

(** ** Class attributes of [WqpProgram] *)

Definition TEMPDB : string := "temp.sqlite3".

Definition datasource : string := "WQP".

Definition fields_sample_id : string := "ActivityIdentifier".
Definition fields_monitoring_location_id : string := "MonitoringLocationIdentifier".

Definition sql_wqxids : string := "select {0} from {1} where {0} LIKE '%_WQX%'".


(** ** What SQLite answers to the [wqxids] statement

    [query_csv] loads the file into a table of SQLite and runs the statement
    on it. In the [LIKE] of SQLite a [%] of the pattern stands for any run
    of characters, a [_] for any one character, and a letter matches
    without regard to its case. *)

(** The upper case of an ASCII letter. *)
Definition to_upper (c : ascii) : ascii :=
  let n := nat_of_ascii c in
  if (97 <=? n)%nat && (n <=? 122)%nat then ascii_of_nat (n - 32) else c.

(** Whether [matches] holds of [s] or of what follows some first characters
    of [s]. *)
Fixpoint like_from (matches : string → bool) (s : string) : bool :=
  matches s
  || match s with
     | EmptyString => false
     | String _ rest => like_from matches rest
     end.

(** [s LIKE pattern] *)
Fixpoint sql_like (pattern s : string) {struct pattern} : bool :=
  match pattern with
  | EmptyString =>
      match s with
      | EmptyString => true
      | String _ _ => false
      end
  | String p pattern' =>
      if Ascii.eqb p "%"%char then like_from (sql_like pattern') s
      else
        match s with
        | EmptyString => false
        | String c rest =>
            (Ascii.eqb p "_"%char || Ascii.eqb (to_upper p) (to_upper c))
            && sql_like pattern' rest
        end
  end.

(** The pattern of the [wqxids] statement. *)
Definition wqx_like : string := "%_WQX%".

(** The answer to the [wqxids] statement for a file whose rows have
    [station_ids] in the column [MonitoringLocationIdentifier]: the name of
    the column, then one row of one cell for each id the pattern selects,
    in the order of the file. *)
Definition wqxids_answer (station_ids : list string) : list (list string) :=
  [fields_monitoring_location_id]
    :: ((λ id, [id]) <$> filter (λ id, sql_like wqx_like id = true) station_ids).

Definition sql_station_insert : string :=
  "insert into Stations (OrgId, OrgName, StationId, StationName, StationType, StationComment,"
  +:+ " HUC8, Lon_X, Lat_Y, HorAcc, HorAccUnit, HorCollMeth, HorRef, Elev, ElevUnit, ElevAcc,"
  +:+ " ElevAccUnit, ElevMeth, ElevRef, StateCode, CountyCode, Aquifer, FmType, AquiferType,"
  +:+ " ConstDate, Depth, DepthUnit, HoleDepth, HoleDUnit, demELEVm, DataSource, WIN, Shape)"
  +:+ " values ({})".

Definition sql_new_stations : string :=
  "SELECT * FROM (VALUES{}) AS t(StationId) WHERE NOT EXISTS("
  +:+ "SELECT 1 FROM [UGSWaterChemistry].[dbo].[Stations] WHERE [StationId] = t.StationId)".

Definition station_config : gmap string string :=
  list_to_map [
    ("OrganizationIdentifier", "OrgId");
    ("OrganizationFormalName", "OrgName");
    ("MonitoringLocationIdentifier", "StationId");
    ("MonitoringLocationName", "StationName");
    ("MonitoringLocationTypeName", "StationType");
    ("MonitoringLocationDescriptionText", "StationComment");
    ("HUCEightDigitCode", "HUC8");
    ("LongitudeMeasure", "Lon_X");
    ("LatitudeMeasure", "Lat_Y");
    ("HorizontalAccuracyMeasure/MeasureValue", "HorAcc");
    ("HorizontalAccuracyMeasure/MeasureUnitCode", "HorAccUnit");
    ("HorizontalCollectionMethodName", "HorCollMeth");
    ("HorizontalCoordinateReferenceSystemDatumName", "HorRef");
    ("VerticalMeasure/MeasureValue", "Elev");
    ("VerticalMeasure/MeasureUnitCode", "ElevUnit");
    ("VerticalAccuracyMeasure/MeasureValue", "ElevAcc");
    ("VerticalAccuracyMeasure/MeasureUnitCode", "ElevAccUnit");
    ("VerticalCollectionMethodName", "ElevMeth");
    ("VerticalCoordinateReferenceSystemDatumName", "ElevRef");
    ("StateCode", "StateCode");
    ("CountyCode", "CountyCode");
    ("AquiferName", "Aquifer");
    ("FormationTypeText", "FmType");
    ("AquiferTypeName", "AquiferType");
    ("ConstructionDateText", "ConstDate");
    ("WellDepthMeasure/MeasureValue", "Depth");
    ("WellDepthMeasure/MeasureUnitCode", "DepthUnit");
    ("WellHoleDepthMeasure/MeasureValue", "HoleDepth");
    ("WellHoleDepthMeasure/MeasureUnitCode", "HoleDUnit");
    ("demELEVm", "!demELEVm");
    ("DataSource", "!DataSource");
    ("WIN", "!WIN");
    ("Shape", "!Shape")
  ].

(** ** Rows *)

(** [dict(pairs)]: a later pair overrides an earlier one with the same key. *)
Definition py_dict {V} (pairs : list (string * V)) : gmap string V :=
  foldl (λ d kv, <[kv.1 := kv.2]> d) ∅ pairs.

(** The characters of a [str], as iterating over it yields them. *)
Fixpoint chars (s : string) : list string :=
  match s with
  | EmptyString => []
  | String c rest => String c EmptyString :: chars rest
  end.

(** What [_etl_column_names] receives as [rows]: a [dict], or a [list]. *)
Inductive etl_in (F : Type) :=
| ADict (d : gmap string (value F))
| AList (xs : list (value F)).
Arguments ADict {F} d.
Arguments AList {F} xs.

(** What it returns: [None], one [dict], or a [list] of them. *)
Inductive etl_out (F : Type) :=
| ENone
| EDict (d : gmap string (value F))
| EList (ds : list (gmap string (value F))).
Arguments ENone {F}.
Arguments EDict {F} d.
Arguments EList {F} ds.

(** What [_get_wqx_duplicate_ids] receives as [file_path]: the path of a
    station file, or the list of the stations of an update. *)
Inductive wqx_source (F : Type) :=
| SrcPath (file_path : string)
| SrcStations (stations : list (gmap string (value F))).
Arguments SrcPath {F} file_path.
Arguments SrcStations {F} stations.

Section Rows.

Context {F : Type}.

(** [bool(f)] for a float: whether it differs from zero. *)
Variable float_truth : F → bool.

(** The text of a float under [str.format]. *)
Variable float_str : F → string.

(** [Reproject.to_utm(x, y)], the projected pair. *)
Variable to_utm : value F → value F → F * F.

(** [query_csv(sql, files, db)]: the rows of the answer, header first. *)
Variable query_csv : string → list string → string → list (list string).

Local Abbreviation Row := (gmap string (value F)).

(** Truth value of a Python object, as [not], [and] and [if] test it. *)
Definition truthy (v : value F) : bool :=
  match v with
  | VNone => false
  | VStr s => negb (bool_decide (s = ""))
  | VInt n => negb (n =? 0)%Z
  | VFloat f => float_truth f
  | VTuple t => negb (bool_decide (t = []))
  end.

(** [row[key]] *)
Definition getitem (row : Row) (key : string) : result (value F) :=
  match row !! key with
  | Some v => Ok v
  | None => Raise (KeyError key)
  end.

(** An argument of [wqx_re.search] or [re.sub] has to be a string. *)
Definition as_str (v : value F) : result string :=
  match v with
  | VStr s => Ok s
  | _ => Raise TypeError
  end.

(** Iterating over a value: the cells of a tuple, the characters of a
    string; anything else is not iterable. *)
Definition iter_value (v : value F) : result (list (value F)) :=
  match v with
  | VTuple t => Ok t
  | VStr s => Ok (VStr <$> chars s)
  | _ => Raise TypeError
  end.

(** The header cells of a row taken from [rows]. Column names are strings:
    a header cell of another type is reported as a [TypeError]. *)
Definition header_cells (v : value F) : result (list string) :=
  cells ← iter_value v; for_each as_str cells.

(** [return_value_if_not_in_config], the inner function of
    [_etl_column_names]; [key in None] raises. *)
Definition return_value_if_not_in_config (config : option (gmap string string))
    (key : string) : result string :=
  match config with
  | None => Raise TypeError
  | Some config =>
      match config !! key with
      | Some dest => Ok dest
      | None => Ok key
      end
  end.

(** [_etl_column_names(self, rows, config, header=None)] *)
Definition _etl_column_names (rows : etl_in F)
    (config : option (gmap string string)) (header : option (list string))
  : result (etl_out F) :=
  match rows with
  | ADict d => Ok (EDict d)
  | AList xs =>
      if bool_decide (length xs = 0) then Ok ENone
      else
        '(header, xs) ←
          match header, xs with
          | Some (h :: hs), _ => Ok (h :: hs, xs)
          | _, first :: rest => h ← header_cells first; Ok (h, rest)
          | _, [] => Raise IndexError
          end;
        header ← for_each (return_value_if_not_in_config config) header;
        match xs with
        | [] => Raise IndexError
        | VTuple _ :: _ =>
            EList <$> for_each
              (λ x, cells ← iter_value x; Ok (py_dict (zip header cells))) xs
        | _ :: _ => Ok (EDict (py_dict (zip header xs)))
        end
  end.

(** [_get_file_name_without_extension(self, file_path)] *)
Definition _get_file_name_without_extension (file_path : string) : string :=
  Str.splitext_root (Str.basename file_path).

(** The [StationId] of a row, as the pattern functions need it. *)
Definition station_id_of (station : Row) : result string :=
  v ← getitem station "StationId"; as_str v.

(** [_get_wqx_duplicate_ids(self, file_path)]. A list has no file name: the
    [AttributeError] is caught and the list is taken as the stations. *)
Definition _get_wqx_duplicate_ids (file_path : wqx_source F)
  : result (gset string) :=
  match file_path with
  | SrcPath p =>
      let file_name := _get_file_name_without_extension p in
      if negb (bool_decide (file_name = "")) then
        match Str.format sql_wqxids [fields_monitoring_location_id; file_name] with
        | None => Raise IndexError
        | Some statement =>
            let rows := query_csv statement [p] TEMPDB in
            let rows := if bool_decide (0 < length rows) then tail rows else rows in
            ids ← for_each
                   (λ row, match row with
                           | cell :: _ => Ok (Str.wqx_sub cell)
                           | [] => Raise IndexError
                           end) rows;
            Ok (list_to_set ids)
        end
      else Raise (UnboundLocalError "stations")
  | SrcStations stations =>
      ids ← for_each station_id_of stations;
      Ok (list_to_set (Str.wqx_sub <$> filter (λ id, Str.wqx_search id = true) ids))
  end.

(** The text [_update_row] stores in [Shape]. *)
Definition shape_template : string :=
  "geometry::STGeomFromText('POINT ({} {})', 26912)".

(** That text for a projected pair, with the two fields filled in. *)
Definition geometry_literal (shape : F * F) : string :=
  "geometry::STGeomFromText('POINT (" +:+ float_str shape.1 +:+ " "
    +:+ float_str shape.2 +:+ ")', 26912)".

(** [x or y] on strings: the first one unless it is empty. *)
Definition str_or (x y : string) : string :=
  if bool_decide (x = "") then y else x.

(** [_update_row(self, row)]. The dictionary is updated in place: the first
    component is its state when the call ends, the second the exception
    the call raised, if any. Without one the call returns that same
    dictionary. *)
Definition _update_row (row : Row) : Row * option exn :=
  let row := <["DataSource" := VStr datasource]> row in
  match row !! "Lon_X" with
  | None => (row, Some (KeyError "Lon_X"))
  | Some x =>
      match row !! "Lat_Y" with
      | None => (row, Some (KeyError "Lat_Y"))
      | Some y =>
          if negb (truthy x && truthy y) then (row, None)
          else if negb (bool_decide (is_Some (row !! "Shape"))) then (row, None)
          else
            let shape := to_utm x y in
            match Str.format shape_template
                    [float_str shape.1; float_str shape.2] with
            | None => (row, Some IndexError)
            | Some text => (<["Shape" := VStr text]> row, None)
            end
      end
  end.

(** The value of a call of [_update_row], for a caller that goes on with
    the row it returns. *)
Definition updated_row (row : Row) : result Row :=
  match _update_row row with
  | (row, None) => Ok row
  | (_, Some e) => Raise e
  end.

End Rows.

(** ** The program object and the database driver *)

(** The calls the program makes on [pyodbc], in the order it makes them. *)
Inductive call :=
| Connect (connection_string : string)
| Execute (statement : string)
| Commit.

#[global] Instance call_eq_dec : EqDecision call.
Proof. solve_decision. Defined.

Inductive Cursor := PyodbcCursor.

(** The attributes of a [WqpProgram]; [None] is an attribute that is not
    set (what [hasattr] tests and [del] brings about). *)
Record Program := {
  db : gmap string string;
  results_folder : option string;
  stations_folder : option string;
  cursor : option Cursor
}.

(** The program together with the calls the driver has received. *)
Record World := {
  self : Program;
  calls : list call
}.

Definition set_cursor (c : option Cursor) (w : World) : World :=
  {| self := {| db := db (self w);
                results_folder := results_folder (self w);
                stations_folder := stations_folder (self w);
                cursor := c |};
     calls := calls w |}.

Definition log_call (c : call) (w : World) : World :=
  {| self := self w; calls := calls w ++ [c] |}.

(** A method that changes the program or talks to the driver, and may
    raise. *)
Definition M (A : Type) : Type := World → World * result A.

Definition M_ret {A} (a : A) : M A := λ w, (w, Ok a).

Definition M_bind {A B} (f : A → M B) (m : M A) : M B :=
  λ w, match m w with
       | (w', Ok a) => f a w'
       | (w', Raise e) => (w', Raise e)
       end.

#[global] Instance M_mret : MRet M := @M_ret.
#[global] Instance M_mbind : MBind M := @M_bind.

Definition raise {A} (e : exn) : M A := λ w, (w, Raise e).

(** A computation that touches neither the program nor the driver. *)
Definition lift {A} (r : result A) : M A := λ w, (w, r).

(** [try: m except Exception, e: handler e] *)
Definition try_except {A} (m : M A) (handler : exn → M A) : M A :=
  λ w, match m w with
       | (w', Ok a) => (w', Ok a)
       | (w', Raise e) => handler e w'
       end.

(** Reading and setting the attribute [cursor]; [self.db[key]]. *)
Definition get_cursor : M (option Cursor) := λ w, (w, Ok (cursor (self w))).

Definition put_cursor (c : option Cursor) : M unit := λ w, (set_cursor c w, Ok ()).

Definition get_db (key : string) : M string :=
  λ w, match db (self w) !! key with
       | Some v => (w, Ok v)
       | None => (w, Raise (KeyError key))
       end.

(** The number of commits among the calls the driver received. *)
Definition count_commits (cs : list call) : nat :=
  length (filter (λ c, c = Commit) cs).

(** [list.remove(x)]: the first occurrence leaves the list. (On a list
    without [x] Python raises [ValueError]; the loop of
    [_remove_existing_wqx_station_ids] removes only what it has just read
    from the list.) *)
Fixpoint list_remove (x : string) (l : list string) : list string :=
  match l with
  | [] => []
  | y :: rest => if bool_decide (x = y) then rest else y :: list_remove x rest
  end.

Definition inspect {A} (a : A) : {b : A | a = b} := exist _ a eq_refl.

(** The loop [for id in station_ids: if re.sub(wqx_re, '-', id) not in
    uniques: station_ids.remove(id)]. The iterator of a list holds an index
    [i] into the list it walks, which the body shortens: it stops when [i]
    is past the end of the list as it then is. *)
Equations? remove_loop (uniques : gset string) (i : nat) (station_ids : list string)
  : list string by wf (length station_ids - i) lt :=
  remove_loop uniques i station_ids with inspect (station_ids !! i) => {
    | exist _ None _ := station_ids;
    | exist _ (Some id) Hid :=
        if bool_decide (Str.wqx_sub id ∉ uniques)
        then remove_loop uniques (S i) (list_remove id station_ids)
        else remove_loop uniques (S i) station_ids }.
Proof.
  - assert (∀ x (l : list string), x ∈ l → S (length (list_remove x l)) = length l)
      as Hlen.
    { intros x l. induction l as [|y l IH]; intros Hin;
        [by apply not_elem_of_nil in Hin|].
      simpl. case_bool_decide as Hxy; [done|].
      apply elem_of_cons in Hin as [->|Hin]; [done|].
      simpl. by rewrite IH. }
    pose proof (lookup_lt_Some _ _ _ Hid) as Hlt.
    specialize (Hlen id station_ids).
    assert (id ∈ station_ids) as Hin by (apply list_elem_of_lookup; eauto).
    specialize (Hlen Hin). lia.
  - pose proof (lookup_lt_Some _ _ _ Hid). lia.
Qed.

Section Driver.

(** The error, if any, that [pyodbc] raises on a call, given the calls it
    has received before. *)
Variable driver : list call → call → option exn.

(** The [StationId] column of the destination table [Stations] when the
    program queries it. *)
Variable Stations : gset string.

(** A call on the driver: it is made, and it may raise. *)
Definition driver_call (c : call) : M unit :=
  λ w, match driver (calls w) c with
       | Some e => (log_call c w, Raise e)
       | None => (log_call c w, Ok ())
       end.

(** [if not hasattr(self, 'cursor') or not self.cursor: c =
    pyodbc.connect(self.db['connection_string']); self.cursor = c.cursor()] *)
Definition open_cursor : M unit :=
  c ← get_cursor;
  match c with
  | Some _ => mret ()
  | None =>
      cs ← get_db "connection_string";
      driver_call (Connect cs) ;;
      put_cursor (Some PyodbcCursor)
  end.

(** [self.cursor.execute(statement)] and [self.cursor.commit()]: reading
    an attribute that is not set raises. *)
Definition on_cursor (c : call) : M unit :=
  cur ← get_cursor;
  match cur with
  | None => raise AttributeError
  | Some _ => driver_call c
  end.

(** [del self.cursor] *)
Definition del_cursor : M unit :=
  cur ← get_cursor;
  match cur with
  | None => raise AttributeError
  | Some _ => put_cursor None
  end.

(** [try: self.cursor.execute(statement); i += 1
     except Exception, e: del self.cursor; raise e] *)
Definition try_execute (statement : string) (i : Z) : M Z :=
  try_except (on_cursor (Execute statement) ;; mret (i + 1)%Z)
             (λ e, del_cursor ;; raise e).

Definition batch_size : Z := 5000.

(** The body of [for row in rows:] in [_insert_rows], with the counter [i]
    it carries from one row to the next. *)
Fixpoint insert_loop (insert_statement : string) (rows : list (list string))
    (i : Z) : M unit :=
  match rows with
  | [] => mret ()
  | row :: rest =>
      statement ←
        match Str.format insert_statement [Str.join "," row] with
        | Some statement => mret statement
        | None => raise IndexError
        end;
      i ← try_execute statement i;
      (if (i `mod` batch_size =? 0)%Z then on_cursor Commit else mret ()) ;;
      on_cursor Commit ;;
      insert_loop insert_statement rest i
  end.

(** [_insert_rows(self, rows, insert_statement)] *)
Definition _insert_rows (rows : list (list string)) (insert_statement : string)
  : M unit :=
  open_cursor ;; insert_loop insert_statement rows 1.

(** [_get_unique_station_ids(self, station_ids)]. [fetchall] answers the
    statement [new_stations]: one row of one column for each submitted id
    that no row of [Stations] has. *)
Definition _get_unique_station_ids (station_ids : list string)
  : M (list (list string)) :=
  let values := (λ station_id, "('" +:+ station_id +:+ "')") <$> station_ids in
  open_cursor ;;
  statement ←
    match Str.format sql_new_stations [Str.join "," values] with
    | Some statement => mret statement
    | None => raise IndexError
    end;
  on_cursor (Execute statement) ;;
  mret ((λ station_id, [station_id])
          <$> filter (λ station_id, station_id ∉ Stations) station_ids).

(** [_remove_existing_wqx_station_ids(self, station_ids)]. The list is
    changed in place and returned. [wqxs] is a set: the order in which its
    ids reach the statement is the order of [elements]. *)
Definition _remove_existing_wqx_station_ids (station_ids : list string)
  : M (list string) :=
  let wqxs : gset string :=
    list_to_set (filter (λ x, Str.wqx_search x = true) station_ids) in
  if bool_decide (size wqxs < 1) then mret station_ids
  else
    let stripped_wqx := Str.wqx_sub <$> elements wqxs in
    rows ← _get_unique_station_ids stripped_wqx;
    firsts ← lift (for_each (λ stripped, match stripped with
                                         | first :: _ => Ok first
                                         | [] => Raise IndexError
                                         end) rows);
    let uniques : gset string := list_to_set firsts in
    mret (remove_loop uniques 0 station_ids).

End Driver.

Section Construction.

(** [os.path.isdir] on the file system the program runs on. *)
Variable isdir : string → bool.

(** [glob.glob] on that file system. *)
Variable glob : string → list string.

(** [WqpProgram.__init__(self, db, file_location=None)]: the new object, or
    the exception of the constructor. *)
Definition __init__ (db : gmap string string) (file_location : option string)
  : result Program :=
  match file_location with
  | None =>
      Ok {| db := db; results_folder := None; stations_folder := None;
            cursor := None |}
  | Some file_location =>
      let parent_folder := Str.path_join file_location datasource in
      if negb (isdir parent_folder) then
        Raise (Exception
                 ("Pass in a location to the parent folder that contains WQP. "
                  +:+ parent_folder))
      else
        let results_folder := Str.path_join parent_folder "Results" in
        let stations_folder := Str.path_join parent_folder "Stations" in
        if negb (isdir (str_or results_folder stations_folder)) then
          Raise (Exception
                   "WQP folder is missing Results or Stations child folders containing csv files.")
        else
          Ok {| db := db; results_folder := Some results_folder;
                stations_folder := Some stations_folder; cursor := None |}
  end.

(** [_get_files(self, location)] *)
Definition _get_files (location : string) : result (list string) :=
  if bool_decide (location = "") then
    Raise (Exception "Pass in a location containing csv files to import.")
  else
    let files := glob (Str.path_join location "*.csv") in
    if bool_decide (length files < 1) then Raise (Exception "No csv files found.")
    else Ok files.

End Construction.

Section Seeding.

Context {F : Type}.
Variable float_truth : F → bool.
Variable float_str : F → string.
Variable to_utm : value F → value F → F * F.
Variable driver : list call → call → option exn.

Local Abbreviation Row := (gmap string (value F)).

(** The services and the schema the pipeline consumes ([services.Caster],
    [services.Normalizer], [schema.station]): row to row transforms. A row
    that went through [reorder_filter] is ordered. *)
Context {Schema : Type}.
Variable schema_station : Schema.
Variable Caster_cast : Row → Schema → Row.
Variable Normalizer_normalize_station : Row → Row.
Variable Normalizer_reorder_filter : Row → Schema → list (string * value F).
Variable Caster_cast_for_sql : list (string * value F) → list (string * string).

(** [row['StationId']] on what [_etl_column_names] returned: neither [None]
    nor a list takes a string as subscript. *)
Definition mapped_row (mapped : etl_out F) : result Row :=
  match mapped with
  | EDict row => Ok row
  | ENone | EList _ => Raise TypeError
  end.

(** [station_id in wqx]; the default [wqx=None] is no container. *)
Definition in_wqx (station_id : string) (wqx : option (gset string)) : result bool :=
  match wqx with
  | Some wqx => Ok (bool_decide (station_id ∈ wqx))
  | None => Raise TypeError
  end.

(** The test of the loop of [_seed_stations] on an id: [not
    self.wqx_re.search(station_id) and station_id in wqx], a bare id of the
    duplicate set. *)
Definition bare_duplicate (wqx : gset string) (station_id : string) : bool :=
  negb (Str.wqx_search station_id) && bool_decide (station_id ∈ wqx).

(** What follows the duplicate check in the loop of [_seed_stations]: cast,
    update, normalize, reorder and filter, render; the values of the row
    are what the loop appends to [stations]. *)
Definition station_values (row : Row) : result (list string) :=
  let row := Caster_cast row schema_station in
  row ← updated_row float_truth float_str to_utm row;
  let row := Normalizer_normalize_station row in
  let row := Normalizer_reorder_filter row schema_station in
  let row := Caster_cast_for_sql row in
  Ok (row.*2).

(** One turn of [for row in rows:] in [_seed_stations]: [None] is
    [continue], [Some values] is [stations.append(values)]. *)
Definition seed_station (header : option (list string))
    (wqx : option (gset string)) (row : etl_in F)
  : result (option (list string)) :=
  mapped ← _etl_column_names row (Some station_config) header;
  row ← mapped_row mapped;
  station_id ← getitem row "StationId";
  station_id ← as_str station_id;
  skip ← (if negb (Str.wqx_search station_id) then in_wqx station_id wqx
          else Ok false);
  if skip : bool then Ok None
  else values ← station_values row; Ok (Some values).

(** [_seed_stations(self, rows, header=None, wqx=None)] *)
Definition _seed_stations (rows : list (etl_in F))
    (header : option (list string)) (wqx : option (gset string)) : M unit :=
  stations ← lift (for_each (seed_station header wqx) rows);
  _insert_rows driver (omap id stations) sql_station_insert.

End Seeding.

(** ** Stand-ins for the examples

    The collaborators of the program are parameters of the model. The
    examples below run it with these. *)

Module Sample.

(** Floats that are whole numbers. *)
Definition float_truth (f : Z) : bool := negb (f =? 0)%Z.

Definition float_str (f : Z) : string := pretty f.

(** A projection that sends every point to the same pair. *)
Definition to_utm (_ _ : value Z) : Z * Z := (243900, 4432069)%Z.

(** A station file whose marker query returns three rows after its
    header. *)
Definition query_csv (_ : string) (_ : list string) (_ : string)
  : list (list string) :=
  [["MonitoringLocationIdentifier"]; ["UTAHDWQ_WQX-4904410"];
   ["UTAHDWQ_WQX-4904640"]; ["UTAHDWQ_WQX-4904610"]].


(** A station file with an id that the pattern of the statement selects
    and that has no marker, and SQLite on that file. *)
Definition unmarked_station_ids : list string := ["UTAHDWQX-1"; "UTAHDWQ-2"].

Definition sqlite_unmarked (_ : string) (_ : list string) (_ : string)
  : list (list string) :=
  wqxids_answer unmarked_station_ids.

(** The stations of [test_wqx_duplicates_for_update]. *)
Definition update_stations : list (gmap string (value Z)) :=
  [{["StationId" := VStr "UTAHDWQ_WQX-4904410"]};
   {["StationId" := VStr "UTAHDWQ_WQX-4904610"]};
   {["StationId" := VStr "UTAHDWQ-111"]}].

(** A driver that raises nothing, and one that refuses a statement. *)
Definition quiet : list call → call → option exn := λ _ _, None.

Definition refuses (statement : string) : list call → call → option exn :=
  λ _ c, if bool_decide (c = Execute statement)
         then Some (DriverError "refused") else None.

(** A program built for an update, before its first call on the driver. *)
Definition world : World :=
  {| self := {| db := {["connection_string" := "DSN=ugs"]};
                results_folder := None; stations_folder := None;
                cursor := None |};
     calls := [] |}.

(** A file system with the parent folder and [Results], without
    [Stations]. *)
Definition isdir (path : string) : bool :=
  bool_decide (path ∈ ["data/WQP"; "data/WQP/Results"]).

(** The candidates of
    [test_remove_existing_wqx_station_ids_that_exist_in_database]; the
    destination [empty_destination] stores no station, so it reports
    [123-ABC] as new, as the mock of the test does. *)
Definition candidates : list string := ["123_WQX-ABC"; "1234"].

Definition empty_destination : gset string := ∅.

(** Candidates of an update: a marker-suffixed id whose canonical form the
    destination [destination] stores, a bare id, and its marker-suffixed
    form. *)
Definition update_candidates : list string := ["a_WQX-1"; "b-2"; "b_WQX-2"].

Definition destination : gset string := {["a-1"]}.

(** The rows of [test_update_row_with_valid_lat_lon] and
    [test_shape_is_none_with_invalid_lat_lon], a row without [Lon_X] and a
    row with a zero longitude. *)
Definition row_valid : gmap string (value Z) :=
  {["Shape" := VNone; "Lon_X" := VInt (-114); "Lat_Y" := VInt 40]}.

Definition row_none : gmap string (value Z) :=
  {["Shape" := VNone; "Lon_X" := VNone; "Lat_Y" := VInt 40]}.

Definition row_without_lon : gmap string (value Z) :=
  {["Shape" := VNone; "Lat_Y" := VInt 40]}.

Definition row_zero : gmap string (value Z) :=
  {["Shape" := VNone; "Lon_X" := VInt 0; "Lat_Y" := VInt 40]}.

(** A row with a float zero as longitude, and a row with a zero longitude
    and no [Lat_Y]. *)
Definition row_zero_float : gmap string (value Z) :=
  {["Shape" := VNone; "Lon_X" := VFloat 0%Z; "Lat_Y" := VInt 40]}.

Definition row_zero_without_lat : gmap string (value Z) :=
  {["Shape" := VNone; "Lon_X" := VInt 0]}.

(** Three station rows of a full load, the second a bare duplicate, and
    the header of the last one. *)
Definition header : option (list string) :=
  Some ["MonitoringLocationIdentifier"; "MonitoringLocationName"].



Definition duplicates : gset string := {["UTAHDWQ-1"]}.

(** Services that keep two columns. *)
Definition cast (row : gmap string (value Z)) (_ : unit) : gmap string (value Z) :=
  <["Lon_X" := VNone]> (<["Lat_Y" := VNone]> row).

Definition normalize_station (row : gmap string (value Z)) : gmap string (value Z) :=
  row.

Definition reorder_filter (row : gmap string (value Z)) (_ : unit)
  : list (string * value Z) :=
  [("StationId", default VNone (row !! "StationId"));
   ("DataSource", default VNone (row !! "DataSource"))].

Definition cast_for_sql (row : list (string * value Z)) : list (string * string) :=
  (λ kv, (kv.1, match kv.2 with
                | VStr s => "'" +:+ s +:+ "'"
                | VInt n => pretty n
                | VFloat f => float_str f
                | VNone | VTuple _ => "Null"
                end)) <$> row.

End Sample.

(** ** The update: grouping, extraction, queries on the destination *)

Definition wqp_url : string :=
  "http://www.waterqualitydata.us/{}/search?sampleMedia=Water&startDateLo={}&startDateHi={}&"
  +:+ "bBox=-115%2C35.5%2C-108%2C42.5&mimeType=csv".

Definition sql_distinct_sample_id : string := "select distinct({}) from {}".

Definition sql_sample_id : string := "select * from {} where {} = '{}'".

Definition sql_result_insert : string :=
  "insert into Results (AnalysisDate, AnalytMeth, AnalytMethId, AutoQual, CAS_Reg, Chrg,"
  +:+ " DataSource, DetectCond, IdNum, LabComments, LabName, Lat_Y, LimitType, Lon_X, MDL,"
  +:+ " MDLUnit, MethodDescript, OrgId, OrgName, Param, ParamGroup, ProjectId, QualCode,"
  +:+ " ResultComment, ResultStatus, ResultValue, SampComment, SampDepth, SampDepthRef,"
  +:+ " SampDepthU, SampEquip, SampFrac, SampleDate, SampleTime, SampleId, SampMedia, SampMeth,"
  +:+ " SampMethName, SampType, StationId, Unit, USGSPCode) values ({})".

Definition sql_create_index : string :=
  "CREATE INDEX IF NOT EXISTS 'ActivityIdentifier_{0}' ON '{0}' ('ActivityIdentifier' ASC)".

Definition sql_max_sample_date : string :=
  "SELECT max(SampleDate) FROM [UGSWaterChemistry].[dbo].[Results]".

Definition sql_new_results : string :=
  "SELECT * FROM (VALUES{}) AS t(SampleId) WHERE NOT EXISTS("
  +:+ "SELECT 1 FROM [UGSWaterChemistry].[dbo].[Results] WHERE [SampleId] = t.SampleId)".

Definition result_config : gmap string string :=
  list_to_map [
    ("AnalysisStartDate", "AnalysisDate");
    ("ResultAnalyticalMethod/MethodName", "AnalytMeth");
    ("ResultAnalyticalMethod/MethodIdentifier", "AnalytMethId");
    ("AutoQual", "!AutoQual");
    ("CAS_Reg", "!CAS_Reg");
    ("Chrg", "!Chrg");
    ("DataSource", "!DataSource");
    ("ResultDetectionConditionText", "DetectCond");
    ("IdNum", "!IdNum");
    ("ResultLaboratoryCommentText", "LabComments");
    ("LaboratoryName", "LabName");
    ("Lat_Y", "!Lat_Y");
    ("DetectionQuantitationLimitTypeName", "LimitType");
    ("Lon_X", "!Lon_X");
    ("DetectionQuantitationLimitMeasure/MeasureValue", "MDL");
    ("DetectionQuantitationLimitMeasure/MeasureUnitCode", "MDLUnit");
    ("MethodDescriptionText", "MethodDescript");
    ("OrganizationIdentifier", "OrgId");
    ("OrganizationFormalName", "OrgName");
    ("CharacteristicName", "Param");
    ("ParamGroup", "!ParamGroup");
    ("ProjectIdentifier", "ProjectId");
    ("MeasureQualifierCode", "QualCode");
    ("ResultCommentText", "ResultComment");
    ("ResultStatusIdentifier", "ResultStatus");
    ("ResultMeasureValue", "ResultValue");
    ("ActivityCommentText", "SampComment");
    ("ActivityDepthHeightMeasure/MeasureValue", "SampDepth");
    ("ActivityDepthAltitudeReferencePointText", "SampDepthRef");
    ("ActivityDepthHeightMeasure/MeasureUnitCode", "SampDepthU");
    ("SampleCollectionEquipmentName", "SampEquip");
    ("ResultSampleFractionText", "SampFrac");
    ("ActivityStartDate", "SampleDate");
    ("ActivityStartTime/Time", "SampleTime");
    ("ActivityIdentifier", "SampleId");
    ("ActivityMediaSubdivisionName", "SampMedia");
    ("SampleCollectionMethod/MethodIdentifier", "SampMeth");
    ("SampleCollectionMethod/MethodName", "SampMethName");
    ("ActivityTypeCode", "SampType");
    ("MonitoringLocationIdentifier", "StationId");
    ("ResultMeasure/MeasureUnitCode", "Unit");
    ("USGSPCode", "USGSPCode")
  ].

(** [sql['sample_id'].format(file_name, fields['sample_id'], sample_id)] and
    [sql['distinct_sample_id'].format(fields['sample_id'], file_name)] *)
Definition sample_id_statement (file_name sample_id : string) : string :=
  "select * from " +:+ file_name +:+ " where ActivityIdentifier = '"
    +:+ sample_id +:+ "'".

Definition distinct_sample_id_statement (file_name : string) : string :=
  "select distinct(ActivityIdentifier) from " +:+ file_name.

(** [sql['result_insert'].format(values)] *)
Definition result_insert_statement (values : string) : string :=
  "insert into Results (AnalysisDate, AnalytMeth, AnalytMethId, AutoQual, CAS_Reg, Chrg,"
  +:+ " DataSource, DetectCond, IdNum, LabComments, LabName, Lat_Y, LimitType, Lon_X, MDL,"
  +:+ " MDLUnit, MethodDescript, OrgId, OrgName, Param, ParamGroup, ProjectId, QualCode,"
  +:+ " ResultComment, ResultStatus, ResultValue, SampComment, SampDepth, SampDepthRef,"
  +:+ " SampDepthU, SampEquip, SampFrac, SampleDate, SampleTime, SampleId, SampMedia, SampMeth,"
  +:+ " SampMethName, SampType, StationId, Unit, USGSPCode) values (" +:+ values +:+ ")".

(** The destination name of a column: [config[key]] if the mapping has the
    key, the key itself otherwise. *)
Definition mapped_name (config : gmap string string) (key : string) : string :=
  default key (config !! key).

(** The calls of [_insert_rows] for statements that all go through, from
    the counter [i] on: each statement, the commit of a full batch when the
    counter reaches a multiple of the batch size, and the commit that ends
    the turn of the loop. *)
Fixpoint sink_trace (i : Z) (statements : list string) : list call :=
  match statements with
  | [] => []
  | statement :: rest =>
      Execute statement
        :: (if ((i + 1) `mod` 5000 =? 0)%Z then [Commit; Commit] else [Commit])
        ++ sink_trace (i + 1) rest
  end.

(** A method keeps the configuration of the program: the connection
    settings and the two folders are after it what they were before. *)
Definition same_configuration (w w' : World) : Prop :=
  db (self w') = db (self w)
  ∧ results_folder (self w') = results_folder (self w)
  ∧ stations_folder (self w') = stations_folder (self w).

Definition keeps_configuration {A} (m : M A) : Prop :=
  ∀ w, same_configuration w (m w).1.

(** Whether a character occurs in a string. *)
Fixpoint has_char (c : ascii) (s : string) : bool :=
  match s with
  | EmptyString => false
  | String a rest => Ascii.eqb a c || has_char c rest
  end.

(** [next()] on an iterator that has no element left. *)
Definition StopIteration : exn := Exception "StopIteration".

(** [for x in xs: body x] for a body that is a method. *)
Fixpoint for_M {A} (body : A → M unit) (xs : list A) : M unit :=
  match xs with
  | [] => mret ()
  | x :: rest => body x ;; for_M body rest
  end.

(** [try: m finally: final] *)
Definition try_finally {A} (m : M A) (final : M unit) : M A :=
  λ w, match m w with
       | (w1, r) =>
           match final w1 with
           | (w2, Ok _) => (w2, r)
           | (w2, Raise e) => (w2, Raise e)
           end
       end.

(** Reading [self.stations_folder] or [self.results_folder]. *)
Definition get_folder (attribute : Program → option string) : M string :=
  λ w, match attribute (self w) with
       | Some folder => (w, Ok folder)
       | None => (w, Raise AttributeError)
       end.

(** [if hasattr(self, 'cursor'): del self.cursor], the [finally] of [seed]
    and of [update]. *)
Definition discard_cursor : M unit :=
  c ← get_cursor;
  match c with
  | Some _ => put_cursor None
  | None => mret ()
  end.

Section Grouping.

Context {F : Type}.

Local Abbreviation Row := (gmap string (value F)).

(** A line that [csv.reader] yields: a list of strings. *)
Definition csv_line (cells : list string) : etl_in F := AList (VStr <$> cells).

(** [config or self.result_config], and the same for the stations. *)
Definition config_or (config : option (gmap string string))
    (default : gmap string string) : gmap string string :=
  match config with
  | None => default
  | Some config => if bool_decide (config = ∅) then default else config
  end.

(** One turn of the loop of [_group_rows_by_id]. *)
Definition group_row (config : gmap string string) (header : list string)
    (unique_sample_ids : gmap string (list Row)) (line : list string)
  : result (gmap string (list Row)) :=
  mapped ← _etl_column_names (csv_line line) (Some config) (Some header);
  row ← mapped_row mapped;
  sample_id ← getitem row "SampleId";
  sample_id ← as_str sample_id;
  match unique_sample_ids !! sample_id with
  | Some rows => Ok (<[sample_id := (rows ++ [row])%list]> unique_sample_ids)
  | None => Ok (<[sample_id := [row]]> unique_sample_ids)
  end.

(** [for row in cursor:] with the dictionary it fills. *)
Fixpoint group_rows (config : gmap string string) (header : list string)
    (unique_sample_ids : gmap string (list Row)) (lines : list (list string))
  : result (gmap string (list Row)) :=
  match lines with
  | [] => Ok unique_sample_ids
  | line :: rest =>
      match group_row config header unique_sample_ids line with
      | Raise e => Raise e
      | Ok unique_sample_ids => group_rows config header unique_sample_ids rest
      end
  end.

(** [_group_rows_by_id(self, cursor, config=None)]. The cursor is the value
    of [HttpClient.get_csv]: a false value ([None] here) or an iterator over
    the lines of the answer. Without a cursor the method returns [None]. *)
Definition _group_rows_by_id (cursor : option (list (list string)))
    (config : option (gmap string string))
  : result (option (gmap string (list Row))) :=
  match cursor with
  | None => Ok None
  | Some [] => Raise StopIteration
  | Some (header :: lines) =>
      Some <$> group_rows (config_or config result_config) header ∅ lines
  end.

(** [row['StationId'] in station_ids] for a list of strings: a value that is
    no string equals none of them. *)
Definition station_in (row : Row) (station_ids : list string) : result bool :=
  station_id ← getitem row "StationId";
  match station_id with
  | VStr station_id => Ok (bool_decide (station_id ∈ station_ids))
  | _ => Ok false
  end.

(** Whether the [StationId] of a row is one of the strings of
    [station_ids]. *)
Definition station_wanted (station_ids : list string) (row : Row) : bool :=
  match row !! "StationId" with
  | Some (VStr station_id) => bool_decide (station_id ∈ station_ids)
  | _ => false
  end.

(** [for row in cursor:] in [_extract_stations_by_id], with the list it
    appends to. *)
Fixpoint extract_stations (station_ids : list string) (header : option (list string))
    (stations_to_insert : list Row) (cursor : list (etl_in F))
  : result (list Row) :=
  match cursor with
  | [] => Ok stations_to_insert
  | row :: rest =>
      match
        (mapped ← _etl_column_names row (Some station_config) header;
         row ← mapped_row mapped;
         wanted ← station_in row station_ids;
         Ok (if wanted : bool then (stations_to_insert ++ [row])%list
             else stations_to_insert))
      with
      | Raise e => Raise e
      | Ok stations_to_insert =>
          extract_stations station_ids header stations_to_insert rest
      end
  end.

(** [_extract_stations_by_id(self, cursor, station_ids, header)]; the rows
    of the cursor are lists of cells or dictionaries. *)
Definition _extract_stations_by_id (cursor : option (list (etl_in F)))
    (station_ids : list string) (header : option (list string))
  : result (option (list Row)) :=
  match cursor with
  | None => Ok None
  | Some rows => Some <$> extract_stations station_ids header [] rows
  end.

End Grouping.

Section Running.

Context {F : Type}.
Variable float_truth : F → bool.
Variable float_str : F → string.
Variable to_utm : value F → value F → F * F.
Variable query_csv : string → list string → string → list (list string).
Variable driver : list call → call → option exn.
Variable Stations : gset string.

(** What [fetchone] and [fetchall] return after the calls the driver has
    received. *)
Variable fetchone : list call → option (list (value F)).
Variable fetchall : list call → list (list string).

(** [HttpClient.get_csv(url)]: a false value, or the lines of the answer. *)
Variable get_csv : string → option (list (list string)).

(** [dateparser(d).strftime('%m-%d-%Y')], which may raise, and
    [datetime.now().strftime('%m-%d-%Y')]. *)
Variable format_date : value F → result string.
Variable now : string.

Local Abbreviation Row := (gmap string (value F)).

(** The services and schemas of the pipelines ([services.Caster],
    [services.Normalizer], [services.ChargeBalancer], [schema]). *)
Context {Schema : Type}.
Variable schema_station schema_result : Schema.
Variable Caster_cast : Row → Schema → Row.
Variable Normalizer_normalize_station : Row → Row.
Variable Normalizer_normalize_sample : Row → Row.
Variable ChargeBalancer_get_charge_balance : list Row → list Row.
Variable Normalizer_reorder_filter : Row → Schema → list (string * value F).
Variable Caster_cast_for_sql : list (string * value F) → list (string * string).

Definition fetch_one : M (option (list (value F))) :=
  λ w, (w, Ok (fetchone (calls w))).

Definition fetch_all : M (list (list string)) :=
  λ w, (w, Ok (fetchall (calls w))).

(** [_get_most_recent_result_date(self)]: the one column of the row, or
    [None]. *)
Definition _get_most_recent_result_date : M (option (value F)) :=
  open_cursor driver ;;
  last_updated ←
    try_except (on_cursor driver (Execute sql_max_sample_date) ;; fetch_one)
               (λ e, del_cursor ;; raise e);
  match last_updated with
  | Some [date] => mret (Some date)
  | _ => mret None
  end.

(** [_format_url(self, template, source, last_updated, today=None)] *)
Definition _format_url (template source : string) (last_updated : value F)
    (today : option (value F)) : result string :=
  lo ← format_date last_updated;
  let hi := now in
  hi ← match today with
       | Some today => if truthy float_truth today then format_date today else Ok hi
       | None => Ok hi
       end;
  match Str.format template [source; lo; hi] with
  | Some url => Ok url
  | None => Raise IndexError
  end.

(** [_get_unique_sample_ids(self, sample_ids)] *)
Definition _get_unique_sample_ids (sample_ids : list string) : M (list (list string)) :=
  open_cursor driver ;;
  statement ←
    match Str.format sql_new_results [Str.join "," sample_ids] with
    | Some statement => mret statement
    | None => raise IndexError
    end;
  on_cursor driver (Execute statement) ;;
  fetch_all.

(** [_remove_existing_results(self, results)]; [None] has no [keys]. The
    keys reach the statement in the order of [map_to_list]. *)
Definition _remove_existing_results (results : option (gmap string (list Row)))
  : M (gmap string (list Row)) :=
  match results with
  | None => raise AttributeError
  | Some results =>
      let sample_ids :=
        (λ sample_id, "('" +:+ sample_id +:+ "')") <$> (map_to_list results).*1 in
      unique_sample_ids ← _get_unique_sample_ids sample_ids;
      let unique_sample_ids := concat unique_sample_ids in
      mret (filter (λ kv, kv.1 ∈ unique_sample_ids) results)
  end.

(** [_find_new_station_ids(self, rows)]. The station ids are strings, the
    cells of a csv line: a [StationId] of another type is reported as a
    [TypeError]. The set reaches the query in the order of [elements]. *)
Definition _find_new_station_ids (rows : gmap string (list Row)) : M (list string) :=
  if bool_decide (rows = ∅) then mret []
  else
    station_ids ← lift (for_each station_id_of (concat (map_to_list rows).*2));
    let unique_station_ids : gset string := list_to_set station_ids in
    unique_station_ids ← _get_unique_station_ids driver Stations
                           (elements unique_station_ids);
    lift (for_each (λ id, match id with
                          | first :: _ => Ok first
                          | [] => Raise IndexError
                          end) unique_station_ids).

(** What [_seed_results] hands to the sink: the samples cast, updated and
    normalized, then the charge balance rows made from them, all reordered
    and rendered. *)
Definition result_values (samples_for_id : list Row) : result (list (list string)) :=
  let samples := (λ sample, Caster_cast sample schema_result) <$> samples_for_id in
  samples ← for_each (updated_row float_truth float_str to_utm) samples;
  let samples := Normalizer_normalize_sample <$> samples in
  let charge_balances := ChargeBalancer_get_charge_balance samples in
  let samples := (samples ++ charge_balances)%list in
  let samples := (λ sample, Normalizer_reorder_filter sample schema_result) <$> samples in
  let samples := Caster_cast_for_sql <$> samples in
  Ok ((λ sample, sample.*2) <$> samples).

(** [_seed_results(self, samples_for_id)] *)
Definition _seed_results (samples_for_id : list Row) : M unit :=
  rows ← lift (result_values samples_for_id);
  _insert_rows driver rows sql_result_insert.

(** The last two statements of the station branch of [update]: the
    duplicate ids of the extracted stations, then their insertion. *)
Definition seed_new_stations (stations : list Row) (header : list string) : M unit :=
  wqx ← lift (_get_wqx_duplicate_ids query_csv (SrcStations stations));
  _seed_stations float_truth float_str to_utm driver schema_station
    Caster_cast Normalizer_normalize_station Normalizer_reorder_filter
    Caster_cast_for_sql (ADict <$> stations) (Some header) (Some wqx).

(** The stations of an update, from [new_station_ids] on: the [if] of
    [update] and its branches. *)
Definition update_stations (last_updated : value F) (new_station_ids : list string)
  : M unit :=
  match new_station_ids with
  | [] => mret ()
  | _ :: _ =>
      station_url ← lift (_format_url wqp_url "Station" last_updated None);
      match get_csv station_url with
      | None =>
          raise (Exception
                   ("WQP service should have returned results but result is empty. "
                    +:+ station_url))
      | Some [] => raise StopIteration
      | Some (header :: new_stations) =>
          stations ← lift (_extract_stations_by_id
                             (Some (csv_line <$> new_stations))
                             new_station_ids (Some header));
          match stations with
          | None => raise TypeError
          | Some stations => seed_new_stations stations header
          end
      end
  end.

(** The body of the [try] of [update]. *)
Definition update_body : M unit :=
  last_updated ← _get_most_recent_result_date;
  match last_updated with
  | None => raise (Exception "No last updated date")
  | Some last_updated =>
      if negb (truthy float_truth last_updated)
      then raise (Exception "No last updated date")
      else
        result_url ← lift (_format_url wqp_url "Result" last_updated None);
        new_results ← lift (_group_rows_by_id (get_csv result_url) None);
        new_results ← _remove_existing_results new_results;
        new_station_ids ← _find_new_station_ids new_results;
        new_station_ids ← _remove_existing_wqx_station_ids driver Stations
                            new_station_ids;
        update_stations last_updated new_station_ids ;;
        for_M _seed_results (map_to_list new_results).*2
  end.

(** [update(self)] *)
Definition update : M unit := try_finally update_body discard_cursor.

(** ** The full load *)

(** [glob.glob]; the lines [csv.reader] yields for a file that [glob] found;
    the error, if any, of the statement [_add_sample_index] runs on the
    scratch database, and of [os.remove]. *)
Variable glob : string → list string.
Variable csv_lines : string → list (list string).
Variable sqlite_execute : string → option exn.
Variable os_remove : string → option exn.

(** A call that raises or does nothing else that the program sees. *)
Definition effect (error : option exn) : M unit :=
  match error with
  | Some e => raise e
  | None => mret ()
  end.

(** [s[:-4]] *)
Definition but_last4 (s : string) : string :=
  String.substring 0 (String.length s - 4) s.

(** A row of [query_csv]: a tuple of strings. *)
Definition query_row (cells : list string) : value F := VTuple (VStr <$> cells).

(** [_get_distinct_sample_ids_from(self, file_path)] *)
Definition _get_distinct_sample_ids_from (file_path : string)
  : result (list (list string)) :=
  let file_name := _get_file_name_without_extension file_path in
  match Str.format sql_distinct_sample_id [fields_sample_id; file_name] with
  | None => Raise IndexError
  | Some statement =>
      let unique_sample_ids := query_csv statement [file_path] TEMPDB in
      Ok (if bool_decide (0 < length unique_sample_ids)
          then tail unique_sample_ids else unique_sample_ids)
  end.

(** [_get_samples_for_id(self, sample_id_set, file_path, config=None)] *)
Definition _get_samples_for_id (sample_id_set : list string) (file_path : string)
    (config : option (gmap string string)) : result (etl_out F) :=
  let file_name := _get_file_name_without_extension file_path in
  sample_id ← match sample_id_set with
              | sample_id :: _ => Ok sample_id
              | [] => Raise IndexError
              end;
  match Str.format sql_sample_id [file_name; fields_sample_id; sample_id] with
  | None => Raise IndexError
  | Some statement =>
      let samples_for_id := query_csv statement [file_path] TEMPDB in
      _etl_column_names (AList (query_row <$> samples_for_id))
        (Some (config_or config result_config)) None
  end.

(** [_add_sample_index(self, filepath)] *)
Definition _add_sample_index (filepath : string) : M unit :=
  match Str.format sql_create_index [but_last4 (Str.basename filepath)] with
  | None => raise IndexError
  | Some statement => effect (sqlite_execute statement)
  end.

(** [_seed_results(samples)] on what [_get_samples_for_id] returned: [map]
    does not take [None]. (The rows of a query are tuples, so a single
    dictionary is not among the values [_get_samples_for_id] returns.) *)
Definition seed_results_of (samples : etl_out F) : M unit :=
  match samples with
  | EList samples => _seed_results samples
  | ENone | EDict _ => raise TypeError
  end.

(** The first loop of [_seed_by_file]: the station files. *)
Definition seed_station_files (stations_folder : string) : M unit :=
  files ← lift (_get_files glob stations_folder);
  for_M (λ csv_file,
           wqx ← lift (_get_wqx_duplicate_ids (F:=F) query_csv (SrcPath csv_file));
           match csv_lines csv_file with
           | [] => raise StopIteration
           | header :: reader =>
               _seed_stations float_truth float_str to_utm driver schema_station
                 Caster_cast Normalizer_normalize_station Normalizer_reorder_filter
                 Caster_cast_for_sql (csv_line <$> reader) (Some header) (Some wqx)
           end) files.

(** The second loop: the result files. *)
Definition seed_result_files (results_folder : string) : M unit :=
  files ← lift (_get_files glob results_folder);
  for_M (λ csv_file,
           unique_sample_ids ← lift (_get_distinct_sample_ids_from csv_file);
           try_finally
             (_add_sample_index csv_file ;;
              for_M (λ sample_id,
                       samples ← lift (_get_samples_for_id sample_id csv_file None);
                       seed_results_of samples) unique_sample_ids)
             (effect (os_remove TEMPDB))) files.

(** [_seed_by_file(self)] *)
Definition _seed_by_file : M unit :=
  stations ← get_folder stations_folder;
  seed_station_files stations ;;
  results ← get_folder results_folder;
  seed_result_files results.

(** [seed(self)] *)
Definition seed : M unit :=
  λ w, match results_folder (self w), stations_folder (self w) with
       | Some _, Some _ => try_finally _seed_by_file discard_cursor w
       | _, _ =>
           (w, Raise (Exception
                        "You must pass a file location if you are seeding. Did you want to update?"))
       end.

End Running.

(** ** More stand-ins for the examples *)

Module Trial.

(** Rows whose floats are whole numbers. *)
Definition Row : Type := gmap string (value Z).

(** A destination whose last result has a date, and one without results. *)
Definition one_date (_ : list call) : option (list (value Z)) :=
  Some [VStr "2015-01-01"].

Definition no_date (_ : list call) : option (list (value Z)) := None.

(** A destination that reports the sample [s1] as new. *)
Definition new_s1 (_ : list call) : list (list string) := [["s1"]].

(** A service that returns nothing. *)
Definition silent (_ : string) : option (list (list string)) := None.

(** Dates that are already texts of the wanted format. *)
Definition format_date (d : value Z) : result string :=
  match d with
  | VStr s => Ok s
  | _ => Raise TypeError
  end.

Definition now : string := "01-01-2016".

(** The answer of the service for the results: a header and three lines,
    two of them of the sample [s1]. *)
Definition result_header : list string :=
  ["ActivityIdentifier"; "MonitoringLocationIdentifier"; "CharacteristicName"].

Definition result_lines : list (list string) :=
  [["s1"; "UTAHDWQ-1"; "pH"]; ["s2"; "UTAHDWQ_WQX-2"; "Calcium"];
   ["s1"; "UTAHDWQ-1"; "Magnesium"]].

Definition result_row (sample station param : string) : Row :=
  {["SampleId" := VStr sample; "StationId" := VStr station; "Param" := VStr param]}.

Definition result_rows : list (Row * string) :=
  [(result_row "s1" "UTAHDWQ-1" "pH", "s1");
   (result_row "s2" "UTAHDWQ_WQX-2" "Calcium", "s2");
   (result_row "s1" "UTAHDWQ-1" "Magnesium", "s1")].

Definition result_groups : gmap string (list Row) :=
  {["s1" := [result_row "s1" "UTAHDWQ-1" "pH";
             result_row "s1" "UTAHDWQ-1" "Magnesium"];
    "s2" := [result_row "s2" "UTAHDWQ_WQX-2" "Calcium"]]}.

(** The stations of an answer: a marker-suffixed station, its bare form and
    another bare station. *)
Definition station (id : string) : Row := {["StationId" := VStr id]}.

Definition station_pairs : list (Row * string) :=
  [(station "UTAHDWQ_WQX-1", "UTAHDWQ_WQX-1"); (station "UTAHDWQ-1", "UTAHDWQ-1");
   (station "UTAHDWQ-2", "UTAHDWQ-2")].

(** The services of the results: samples as they are, and one charge
    balance row for a group that is not empty. *)
Definition normalize_sample (row : Row) : Row := row.

Definition get_charge_balance (samples : list Row) : list Row :=
  match samples with
  | [] => []
  | first :: _ => [<["StationId" := VStr "Charge Balance"]> first]
  end.

(** A caster that adds no key. *)
Definition cast_as_is (row : Row) (_ : unit) : Row := row.

(** A file system with one station file and no result file. *)
Definition glob (pattern : string) : list string :=
  if bool_decide (pattern = "data/WQP/Stations/*.csv")
  then ["data/WQP/Stations/sample_stations.csv"] else [].

Definition csv_lines (_ : string) : list (list string) :=
  [["MonitoringLocationIdentifier"; "MonitoringLocationName"];
   ["UTAHDWQ-7"; "Bear River"]].

Definition no_rows (_ : string) (_ : list string) (_ : string) : list (list string) :=
  [].

Definition no_error (_ : string) : option exn := None.

(** A program built for seeding [data], before its first call on the
    driver. *)
Definition seeding_world : World :=
  {| self := {| db := {["connection_string" := "DSN=ugs"]};
                results_folder := Some "data/WQP/Results";
                stations_folder := Some "data/WQP/Stations";
                cursor := None |};
     calls := [] |}.

End Trial.
(** * Properties *)

(** ** The row updater *)

Section UpdateRow.

Context {F : Type}.
Variable float_truth : F → bool.
Variable float_str : F → string.
Variable to_utm : value F → value F → F * F.

Local Abbreviation Row := (gmap string (value F)).
Local Abbreviation update := (_update_row float_truth float_str to_utm).
Local Abbreviation set := (truthy float_truth).

Lemma format_shape_template a b :
  Str.format shape_template [a; b]
  = Some ("geometry::STGeomFromText('POINT (" +:+ a +:+ " " +:+ b +:+ ")', 26912)").
Proof. reflexivity. Qed.

(** The four ways through [_update_row]. *)
Lemma update_row_cases (row : Row) :
  let tagged := <["DataSource" := VStr datasource]> row in
  match row !! "Lon_X", row !! "Lat_Y" with
  | None, _ => update row = (tagged, Some (KeyError "Lon_X"))
  | Some _, None => update row = (tagged, Some (KeyError "Lat_Y"))
  | Some x, Some y =>
      if set x && set y then
        if bool_decide (is_Some (row !! "Shape")) then
          update row
          = (<["Shape" := VStr (geometry_literal float_str (to_utm x y))]> tagged,
             None)
        else update row = (tagged, None)
      else update row = (tagged, None)
  end.
Proof.
  unfold _update_row. cbv zeta.
  rewrite !lookup_insert_ne by done.
  destruct (row !! "Lon_X") as [x|]; [|done].
  destruct (row !! "Lat_Y") as [y|]; [|done].
  destruct (set x && set y); [|done].
  destruct (bool_decide (is_Some (row !! "Shape"))); [|done].
  by rewrite format_shape_template.
Qed.

Lemma update_row_state (row : Row) :
  (update row).1 = <["DataSource" := VStr datasource]> row
  ∨ ∃ x y, row !! "Lon_X" = Some x ∧ row !! "Lat_Y" = Some y
           ∧ set x = true ∧ set y = true ∧ is_Some (row !! "Shape")
           ∧ update row
             = (<["Shape" := VStr (geometry_literal float_str (to_utm x y))]>
                  (<["DataSource" := VStr datasource]> row), None).
Proof.
  pose proof (update_row_cases row) as H. cbv zeta in H.
  destruct (row !! "Lon_X") as [x|] eqn:Hx; [|left; by rewrite H].
  destruct (row !! "Lat_Y") as [y|] eqn:Hy; [|left; by rewrite H].
  destruct (set x) eqn:Sx; [|left; by rewrite H].
  destruct (set y) eqn:Sy; [|left; by rewrite H].
  simpl in H. case_bool_decide as Hs; [|left; by rewrite H].
  right. by exists x, y.
Qed.

(** C7, as amended. A row whose [Lon_X] and [Lat_Y] are both set (true
    values) and that has a [Shape] key gets as [Shape] the pair
    [Reproject.to_utm(Lon_X, Lat_Y)] in the text
    [geometry::STGeomFromText('POINT (x y)', 26912)]. A row that has both
    coordinate keys, one of them with an unset value, is returned without
    an exception and with [Shape] as it was, absent if it was absent. *)
Theorem update_row_shape (row : Row) (x y : value F) :
  row !! "Lon_X" = Some x →
  row !! "Lat_Y" = Some y →
  (truthy float_truth x = true → truthy float_truth y = true → is_Some (row !! "Shape") →
     _update_row float_truth float_str to_utm row
     = (<["Shape" := VStr (geometry_literal float_str (to_utm x y))]>
          (<["DataSource" := VStr datasource]> row), None))
  ∧ (truthy float_truth x = false ∨ truthy float_truth y = false →
       (_update_row float_truth float_str to_utm row).2 = None
       ∧ (_update_row float_truth float_str to_utm row).1 !! "Shape" = row !! "Shape").
Proof.
  intros Hx Hy. pose proof (update_row_cases row) as H. cbv zeta in H.
  rewrite Hx, Hy in H. split.
  - intros Sx Sy Hs. rewrite Sx, Sy in H. simpl in H.
    by rewrite bool_decide_true in H.
  - intros Hunset.
    assert (set x && set y = false) as Hxy
      by (destruct Hunset as [-> | ->]; [done | by rewrite andb_false_r]).
    rewrite Hxy in H. rewrite H. simpl. split; [done|].
    by rewrite lookup_insert_ne.
Qed.

(** C9. Whatever the row, when [_update_row] ends [DataSource] is ['WQP'],
    every field but [DataSource] and [Shape] is as it was, [Shape] differs
    only if the row had a [Shape] key and both coordinates are set, and the
    keys are those of the row and [DataSource]. *)
Theorem update_row_frame (row : Row) :
  let after := (_update_row float_truth float_str to_utm row).1 in
  after !! "DataSource" = Some (VStr "WQP")
  ∧ (∀ key, key ≠ "DataSource" → key ≠ "Shape" → after !! key = row !! key)
  ∧ (after !! "Shape" ≠ row !! "Shape" →
       is_Some (row !! "Shape")
       ∧ ∃ x y, row !! "Lon_X" = Some x ∧ row !! "Lat_Y" = Some y
                ∧ truthy float_truth x = true ∧ truthy float_truth y = true)
  ∧ dom after = {["DataSource"]} ∪ dom row.
Proof.
  cbv zeta.
  destruct (update_row_state row)
    as [-> | (x & y & Hx & Hy & Sx & Sy & Hs & ->)]; simpl.
  - split; [by rewrite lookup_insert_eq|].
    split; [intros key Hd _; by rewrite lookup_insert_ne|].
    split; [intros Hne; by rewrite lookup_insert_ne in Hne|].
    by rewrite dom_insert_L.
  - split; [by rewrite lookup_insert_ne, lookup_insert_eq|].
    split; [intros key Hd Hsh; by rewrite !lookup_insert_ne|].
    split; [intros _; split; [done|by exists x, y]|].
    rewrite !dom_insert_L. apply elem_of_dom in Hs.
    apply set_eq. intros key. rewrite !elem_of_union, !elem_of_singleton.
    split; [intros [-> | H']; [by right | done] | intros H'; by right].
Qed.

(** C10, as amended. Truthiness decides, not the presence of the keys: a
    row whose [Lon_X] or [Lat_Y] is a zero (the integer [0] or a float whose
    truth value is false, [0.0]), the empty string or [None] ends with
    [DataSource] written and nothing else, so with [Shape] untouched, and
    the projection plays no part. With both coordinate keys in the row the
    call returns it; without one of them it raises [KeyError], whatever the
    value under the other. *)
Theorem update_row_zero_coordinate (row : Row) (v : value F) :
  v = VInt 0 ∨ v = VStr "" ∨ v = VNone ∨ (∃ z, v = VFloat z ∧ float_truth z = false) →
  row !! "Lon_X" = Some v ∨ row !! "Lat_Y" = Some v →
  (_update_row float_truth float_str to_utm row).1 = <["DataSource" := VStr datasource]> row
  ∧ (_update_row float_truth float_str to_utm row).1 !! "Shape" = row !! "Shape"
  ∧ (∀ to_utm', _update_row float_truth float_str to_utm' row = _update_row float_truth float_str to_utm row)
  ∧ (_update_row float_truth float_str to_utm row).2
    = match row !! "Lon_X", row !! "Lat_Y" with
      | None, _ => Some (KeyError "Lon_X")
      | Some _, None => Some (KeyError "Lat_Y")
      | Some _, Some _ => None
      end.
Proof.
  intros Hv Hrow.
  assert (set v = false) as Sv
    by (by destruct Hv as [-> | [-> | [-> | (z & -> & Hz)]]]).
  assert (∀ u, _update_row float_truth float_str u row
               = (<["DataSource" := VStr datasource]> row,
                  match row !! "Lon_X", row !! "Lat_Y" with
                  | None, _ => Some (KeyError "Lon_X")
                  | Some _, None => Some (KeyError "Lat_Y")
                  | Some _, Some _ => None
                  end)) as Hall.
  { intros u. unfold _update_row. cbv zeta.
    rewrite !lookup_insert_ne by done.
    destruct (row !! "Lon_X") as [x|] eqn:Hx; [|done].
    destruct (row !! "Lat_Y") as [y|] eqn:Hy; [|done].
    assert (set x && set y = false) as Hxy.
    { destruct Hrow as [[= ->] | [= ->]]; rewrite Sv; [done|].
      by rewrite andb_false_r. }
    by rewrite Hxy. }
  rewrite (Hall to_utm). simpl. split; [done|].
  split; [by rewrite lookup_insert_ne|].
  split; [intros u; by rewrite Hall|].
  done.
Qed.

End UpdateRow.

(** ** The row mapper and the duplicate ids *)

Section Mapper.

Context {F : Type}.
Variable query_csv : string → list string → string → list (list string).

Local Abbreviation Row := (gmap string (value F)).

(** C8. The mapper returns a dictionary as it is, whatever the mapping and
    the header: no key is renamed, added or removed, and mapping what the
    mapper returned for it changes nothing. *)
Theorem etl_column_names_dict (row : Row) (config config' : option (gmap string string))
    (header header' : option (list string)) :
  _etl_column_names (ADict row) config header = Ok (EDict row)
  ∧ (mapped ← _etl_column_names (ADict row) config header;
     match mapped with
     | EDict d => _etl_column_names (ADict d) config' header'
     | _ => Raise TypeError
     end) = Ok (EDict row).
Proof. split; reflexivity. Qed.





Lemma station_id_of_Ok (station : Row) (id : string) :
  station_id_of station = Ok id ↔ station !! "StationId" = Some (VStr id).
Proof.
  unfold station_id_of, getitem.
  destruct (station !! "StationId") as [[]|]; simpl; naive_solver.
Qed.









End Mapper.

(** ** The batched sink *)

Section Sink.

Variable driver : list call → call → option exn.

Local Abbreviation insert_loop := (insert_loop driver).
Local Abbreviation insert_rows := (_insert_rows driver).

Local Ltac run :=
  unfold mbind, mret, M_mbind, M_mret, M_bind, M_ret, raise, lift, try_except,
    get_cursor, put_cursor, get_db in *.

Lemma open_cursor_opened (w w' : World) :
  open_cursor driver w = (w', Ok ()) → cursor (self w') = Some PyodbcCursor.
Proof.
  unfold open_cursor, driver_call. run.
  destruct (cursor (self w)) as [[]|] eqn:Hc; [by intros [= <-]|].
  destruct (db (self w) !! "connection_string"); [|done].
  destruct (driver (calls w) _); [done|]. by intros [= <-].
Qed.

Lemma on_cursor_ok (c : call) (w : World) :
  cursor (self w) = Some PyodbcCursor →
  on_cursor driver c w
  = (log_call c w, match driver (calls w) c with
                   | Some e => Raise e
                   | None => Ok ()
                   end).
Proof.
  intros Hc. unfold on_cursor, driver_call. run. rewrite Hc.
  by destruct (driver (calls w) c).
Qed.

(** A turn of the loop that ends well leaves the cursor in place. *)
Lemma insert_loop_cursor (tmpl : string) (rows : list (list string)) (i : Z)
    (w w' : World) :
  cursor (self w) = Some PyodbcCursor →
  insert_loop tmpl rows i w = (w', Ok ()) →
  cursor (self w') = Some PyodbcCursor.
Proof.
  revert i w. induction rows as [|row rows IH]; intros i w Hc; simpl.
  - run. by intros [= <-].
  - run. destruct (Str.format tmpl _) as [stmt|]; [|done].
    unfold try_execute. run.
    rewrite on_cursor_ok by done.
    destruct (driver (calls w) (Execute stmt)) as [e|].
    { unfold del_cursor. run. simpl. by rewrite Hc. }
    set (w1 := log_call (Execute stmt) w).
    assert (cursor (self w1) = Some PyodbcCursor) as Hc1 by done.
    destruct ((i + 1) `mod` batch_size =? 0)%Z.
    + rewrite on_cursor_ok by done.
      destruct (driver (calls w1) Commit); [done|].
      rewrite on_cursor_ok by done.
      destruct (driver _ Commit); [done|]. by apply IH.
    + rewrite on_cursor_ok by done.
      destruct (driver _ Commit); [done|]. by apply IH.
Qed.

Lemma try_execute_run (stmt : string) (i : Z) (w : World) :
  cursor (self w) = Some PyodbcCursor →
  try_execute driver stmt i w
  = match driver (calls w) (Execute stmt) with
    | Some e => (set_cursor None (log_call (Execute stmt) w), Raise e)
    | None => (log_call (Execute stmt) w, Ok (i + 1)%Z)
    end.
Proof.
  intros Hc. unfold try_execute. run. rewrite on_cursor_ok by done.
  destruct (driver (calls w) (Execute stmt)); [|done].
  unfold del_cursor. run. simpl. by rewrite Hc.
Qed.

(** The rows after a prefix that went through are handled from the world
    the prefix left. *)
Lemma insert_loop_app (tmpl : string) (pre rest : list (list string)) (i : Z)
    (w w1 : World) :
  cursor (self w) = Some PyodbcCursor →
  insert_loop tmpl pre i w = (w1, Ok ()) →
  ∃ i', insert_loop tmpl (pre ++ rest) i w = insert_loop tmpl rest i' w1.
Proof.
  revert i w. induction pre as [|row pre IH]; intros i w Hc; simpl.
  - run. intros [= <-]. by exists i.
  - run. destruct (Str.format tmpl _) as [stmt|]; [|done].
    rewrite try_execute_run by done.
    destruct (driver (calls w) (Execute stmt)) as [e|]; [done|].
    set (w2 := log_call (Execute stmt) w).
    assert (cursor (self w2) = Some PyodbcCursor) as Hc2 by done.
    destruct ((i + 1) `mod` batch_size =? 0)%Z.
    + rewrite on_cursor_ok by done.
      destruct (driver (calls w2) Commit); [done|].
      rewrite on_cursor_ok by done.
      destruct (driver _ Commit); [done|]. by apply IH.
    + rewrite on_cursor_ok by done.
      destruct (driver _ Commit); [done|]. by apply IH.
Qed.

Lemma count_commits_app (cs cs' : list call) :
  count_commits (cs ++ cs')%list = (count_commits cs + count_commits cs')%nat.
Proof. unfold count_commits. by rewrite filter_app, length_app. Qed.

(** Rows that all went through: each one brought at least one commit, and
    the last call of a call with rows is a commit. *)
Lemma insert_loop_commits (tmpl : string) (rows : list (list string)) (i : Z)
    (w w' : World) :
  cursor (self w) = Some PyodbcCursor →
  insert_loop tmpl rows i w = (w', Ok ()) →
  (count_commits (calls w) + length rows ≤ count_commits (calls w'))%nat
  ∧ (rows ≠ [] → last (calls w') = Some Commit).
Proof.
  revert i w. induction rows as [|row rows IH]; intros i w Hc; simpl.
  - run. intros [= <-]. split; [lia|done].
  - run. destruct (Str.format tmpl _) as [stmt|]; [|done].
    rewrite try_execute_run by done.
    destruct (driver (calls w) (Execute stmt)) as [e|]; [done|].
    set (w2 := log_call (Execute stmt) w).
    assert (cursor (self w2) = Some PyodbcCursor) as Hc2 by done.
    assert (∀ w3, cursor (self w3) = Some PyodbcCursor →
                  (count_commits (calls w) ≤ count_commits (calls w3))%nat →
                  insert_loop tmpl rows (i + 1) (log_call Commit w3) = (w', Ok ()) →
                  (count_commits (calls w) + S (length rows)
                   ≤ count_commits (calls w'))%nat
                  ∧ (row :: rows ≠ [] → last (calls w') = Some Commit)) as Hstep.
    { intros w3 Hc3 Hle Hrun.
      destruct (IH _ (log_call Commit w3) Hc3 Hrun) as [Hcount Hlast].
      simpl in Hcount. rewrite count_commits_app in Hcount.
      change (count_commits [Commit]) with 1 in Hcount.
      split; [lia|]. intros _.
      destruct rows as [|row' rows']; [|by apply Hlast].
      simpl in Hrun. run. injection Hrun as <-. simpl. by rewrite last_snoc. }
    destruct ((i + 1) `mod` batch_size =? 0)%Z.
    + rewrite on_cursor_ok by done.
      destruct (driver (calls w2) Commit); [done|].
      rewrite on_cursor_ok by done.
      destruct (driver _ Commit); [done|].
      apply Hstep; [done|]. simpl. rewrite !count_commits_app. lia.
    + rewrite on_cursor_ok by done.
      destruct (driver _ Commit); [done|].
      apply Hstep; [done|]. simpl. rewrite !count_commits_app. lia.
Qed.

(** C5, at the call without rows. The unconditional commit is a statement
    of the loop body: a call of [_insert_rows] with an empty list opens the
    cursor if there is none and commits nothing. *)
Theorem insert_rows_no_rows_no_commit (tmpl : string) (w : World) :
  count_commits (calls (_insert_rows driver [] tmpl w).1) = count_commits (calls w)
  ∧ Forall (λ c, c ≠ Commit) (drop (length (calls w)) (calls (_insert_rows driver [] tmpl w).1)).
Proof.
  unfold _insert_rows, open_cursor, driver_call. run. simpl.
  destruct (cursor (self w)) as [c|]; simpl.
  { rewrite drop_ge by lia. done. }
  destruct (db (self w) !! "connection_string") as [cs|]; simpl.
  2: { rewrite drop_ge by lia. done. }
  destruct (driver (calls w) (Connect cs)); simpl;
    rewrite count_commits_app, drop_app_length;
    (split; [unfold count_commits; simpl; lia | by repeat constructor]).
Qed.

(** C6. Rows [pre] went through; the driver raises [e] on the statement of
    the next row. Then [_insert_rows] raises [e], the attribute [cursor]
    is gone, and the last call the driver received is that one statement:
    it is not tried again, nothing is committed after it and no statement
    of a later row is executed. *)
Theorem insert_rows_error_aborts (tmpl : string) (pre post : list (list string))
    (row : list string) (statement : string) (e : exn) (w w1 : World) :
  _insert_rows driver pre tmpl w = (w1, Ok ()) →
  Str.format tmpl [Str.join "," row] = Some statement →
  driver (calls w1) (Execute statement) = Some e →
  ∃ w', _insert_rows driver (pre ++ row :: post) tmpl w = (w', Raise e)
        ∧ cursor (self w') = None
        ∧ calls w' = (calls w1 ++ [Execute statement])%list.
Proof.
  unfold _insert_rows. run.
  destruct (open_cursor driver w) as [w0 [[]|e0]] eqn:Hopen; [|done].
  intros Hpre Hfmt Hdrv.
  pose proof (open_cursor_opened _ _ Hopen) as Hc0.
  pose proof (insert_loop_cursor _ _ _ _ _ Hc0 Hpre) as Hc1.
  destruct (insert_loop_app tmpl pre (row :: post) 1 w0 w1 Hc0 Hpre) as [i' ->].
  simpl. run. rewrite Hfmt, try_execute_run, Hdrv by done.
  by eexists.
Qed.

End Sink.

(** ** The reconciler of an update *)

Section Reconciler.

Variable driver : list call → call → option exn.
Variable Stations : gset string.

Local Ltac run :=
  unfold mbind, mret, M_mbind, M_mret, M_bind, M_ret, raise, lift, try_except,
    get_cursor, put_cursor, get_db in *.

Lemma wqx_sub_bare (s : string) : Str.wqx_search s = false → Str.wqx_sub s = s.
Proof.
  unfold Str.wqx_sub. induction s as [|c s IH]; [done|].
  cbn [Str.wqx_search Str.wqx_sub_from].
  intros [Hp Hs]%orb_false_iff. rewrite Hp. by rewrite IH.
Qed.








Lemma for_each_first (ids : list string) :
  for_each (λ stripped : list string,
              match stripped with
              | first :: _ => Ok first
              | [] => Raise IndexError
              end) ((λ station_id, [station_id]) <$> ids) = Ok ids.
Proof. induction ids as [|id ids IH]; csimpl; [done|]. by rewrite IH. Qed.

Lemma format_sql_new_stations (values : string) :
  ∃ statement, Str.format sql_new_stations [values] = Some statement.
Proof. by eexists. Qed.

(** With a driver that raises nothing and a cursor, or the connection
    string to open one, the query returns the submitted ids that are not
    stored. *)
Lemma get_unique_station_ids_run (station_ids : list string) (w : World) :
  (∀ history c, driver history c = None) →
  is_Some (cursor (self w)) ∨ is_Some (db (self w) !! "connection_string") →
  ∃ w', _get_unique_station_ids driver Stations station_ids w
        = (w', Ok ((λ station_id, [station_id])
                     <$> filter (λ station_id, station_id ∉ Stations) station_ids)).
Proof.
  intros Hdrv Hopen. unfold _get_unique_station_ids. cbv zeta.
  destruct (format_sql_new_stations
              (Str.join "," ((λ station_id, "('" +:+ station_id +:+ "')")
                               <$> station_ids))) as [statement ->].
  assert (∃ w0, open_cursor driver w = (w0, Ok ())
                ∧ cursor (self w0) = Some PyodbcCursor) as (w0 & Hw0 & Hc0).
  { unfold open_cursor, driver_call. run.
    destruct (cursor (self w)) as [[]|] eqn:Hc; [by eexists|].
    destruct Hopen as [[? [=]] | [cs ->]]. rewrite Hdrv. by eexists. }
  run. rewrite Hw0. unfold on_cursor, driver_call. run.
  rewrite Hc0, Hdrv. by eexists.
Qed.


End Reconciler.

(** ** Seeding the stations *)

Section SeedStations.

Context {F : Type}.
Variable float_truth : F → bool.
Variable float_str : F → string.
Variable to_utm : value F → value F → F * F.
Variable driver : list call → call → option exn.
Context {Schema : Type}.
Variable schema_station : Schema.
Variable Caster_cast : gmap string (value F) → Schema → gmap string (value F).
Variable Normalizer_normalize_station : gmap string (value F) → gmap string (value F).
Variable Normalizer_reorder_filter :
  gmap string (value F) → Schema → list (string * value F).
Variable Caster_cast_for_sql : list (string * value F) → list (string * string).

Local Abbreviation Row := (gmap string (value F)).
Local Abbreviation values_of :=
  (station_values float_truth float_str to_utm schema_station Caster_cast
     Normalizer_normalize_station Normalizer_reorder_filter Caster_cast_for_sql).
Local Abbreviation seed_one :=
  (seed_station float_truth float_str to_utm schema_station Caster_cast
     Normalizer_normalize_station Normalizer_reorder_filter Caster_cast_for_sql).
Local Abbreviation seed_all :=
  (_seed_stations float_truth float_str to_utm driver schema_station Caster_cast
     Normalizer_normalize_station Normalizer_reorder_filter Caster_cast_for_sql).

(** One row of the loop: skipped if its id is a bare id of the set, put
    through the pipeline otherwise. *)
Lemma seed_station_row (header : option (list string)) (wqx : gset string)
    (row : etl_in F) (station : Row) (station_id : string) :
  _etl_column_names row (Some station_config) header = Ok (EDict station) →
  station !! "StationId" = Some (VStr station_id) →
  seed_one header (Some wqx) row
  = if bare_duplicate wqx station_id then Ok None
    else values ← values_of station; Ok (Some values).
Proof.
  intros Hmap Hid. unfold seed_station, bare_duplicate.
  rewrite Hmap. simpl. unfold getitem. rewrite Hid. simpl.
  destruct (Str.wqx_search station_id); simpl; [done|].
  by destruct (bool_decide (station_id ∈ wqx)).
Qed.


End SeedStations.

(** ** The constructor *)

Section Folders.

Variable isdir : string → bool.
Variable glob : string → list string.

Lemma path_join_not_empty (a b : string) : b ≠ "" → Str.path_join a b ≠ "".
Proof.
  intros Hb. unfold Str.path_join.
  destruct (String.prefix "/" b); [done|].
  case_bool_decide as Ha; [done|].
  destruct a as [|c a]; [done|].
  by destruct (String.prefix "/" (String.rev (String c a))).
Qed.

(** The test of the child folders looks at [Results] alone: with the
    parent folder in place the outcome of the constructor is the same
    whether [Stations] is there or not. *)
Lemma init_tests_results_only (db : gmap string string) (file_location : string) :
  let parent_folder := Str.path_join file_location datasource in
  let results_folder := Str.path_join parent_folder "Results" in
  let stations_folder := Str.path_join parent_folder "Stations" in
  isdir parent_folder = true →
  __init__ isdir db (Some file_location)
  = if isdir results_folder
    then Ok {| db := db; results_folder := Some results_folder;
               stations_folder := Some stations_folder; cursor := None |}
    else Raise (Exception
                  "WQP folder is missing Results or Stations child folders containing csv files.").
Proof.
  intros parent_folder results_folder stations_folder Hparent.
  unfold __init__. fold parent_folder. rewrite Hparent. cbn [negb].
  fold results_folder stations_folder.
  assert (str_or results_folder stations_folder = results_folder) as ->.
  { unfold str_or. rewrite bool_decide_false; [done|].
    by apply path_join_not_empty. }
  by destruct (isdir results_folder).
Qed.

(** A folder without a csv file stops [_get_files]. *)
Lemma get_files_none (location : string) :
  glob (Str.path_join location "*.csv") = [] →
  ∃ msg, _get_files glob location = Raise (Exception msg).
Proof.
  intros Hglob. unfold _get_files. case_bool_decide; [by eexists|].
  rewrite Hglob. by eexists.
Qed.

End Folders.

(** ** Examples *)



(** The sets of the two station files. *)
Example wqx_duplicate_ids_of_files :
  _get_wqx_duplicate_ids (F:=Z) Sample.query_csv (SrcPath "tests/data/WQP/wqxids.csv")
  = Ok {["UTAHDWQ-4904410"; "UTAHDWQ-4904640"; "UTAHDWQ-4904610"]}
  ∧ _get_wqx_duplicate_ids (F:=Z) Sample.sqlite_unmarked
      (SrcPath "data/WQP/Stations/stations.csv")
    = Ok {["UTAHDWQX-1"]}.
Proof.
  split.
  - apply (f_equal Ok). apply set_eq. intros x. set_solver.
  - apply (f_equal Ok). apply set_eq. intros x. set_solver.
Qed.


(** The loop shortens the list it walks: after a removal the next id is
    passed over. Both canonical ids are stored here, and the second
    marker-suffixed id stays. *)
Example remove_existing_wqx_station_ids_passes_over :
  (_remove_existing_wqx_station_ids Sample.quiet {["a-1"; "b-2"]}
     ["a_WQX-1"; "b_WQX-2"] Sample.world).2 = Ok ["b_WQX-2"].
Proof. by vm_compute. Qed.


(** The lists returned for those candidates and for the candidates of the
    test. *)
Example remove_existing_wqx_station_ids_results :
  (_remove_existing_wqx_station_ids Sample.quiet Sample.destination
     Sample.update_candidates Sample.world).2 = Ok ["b-2"; "b_WQX-2"]
  ∧ (_remove_existing_wqx_station_ids Sample.quiet Sample.empty_destination
       Sample.candidates Sample.world).2 = Ok ["123_WQX-ABC"].
Proof. split; by vm_compute. Qed.

(** C7, at a row without [Lon_X]: the call raises [KeyError]. *)
Lemma update_row_missing_key_raises :
  Sample.row_without_lon !! "Lon_X" = None
  ∧ (_update_row Sample.float_truth Sample.float_str Sample.to_utm
       Sample.row_without_lon).2 = Some (KeyError "Lon_X").
Proof. split; by vm_compute. Qed.

(** The amended C7 on the rows of the two tests of [_update_row]. *)
Lemma update_row_shape_witness :
  (_update_row Sample.float_truth Sample.float_str Sample.to_utm Sample.row_valid
   = (<["Shape" := VStr (geometry_literal Sample.float_str
                           (Sample.to_utm (VInt (-114)) (VInt 40)))]>
        (<["DataSource" := VStr datasource]> Sample.row_valid), None))
  ∧ ((_update_row Sample.float_truth Sample.float_str Sample.to_utm
        Sample.row_none).2 = None
     ∧ (_update_row Sample.float_truth Sample.float_str Sample.to_utm
          Sample.row_none).1 !! "Shape" = Sample.row_none !! "Shape").
Proof.
  split.
  - destruct (update_row_shape Sample.float_truth Sample.float_str Sample.to_utm
                Sample.row_valid (VInt (-114)) (VInt 40)) as [Hset _];
      [by vm_compute | by vm_compute |].
    apply Hset; [reflexivity | reflexivity | by eexists].
  - destruct (update_row_shape Sample.float_truth Sample.float_str Sample.to_utm
                Sample.row_none VNone (VInt 40)) as [_ Hunset];
      [by vm_compute | by vm_compute |].
    apply Hunset. by left.
Defined.

(** The text stored for the row of [test_update_row_with_valid_lat_lon]. *)
Example update_row_valid_shape :
  (_update_row Sample.float_truth Sample.float_str Sample.to_utm
     Sample.row_valid).1 !! "Shape"
  = Some (VStr "geometry::STGeomFromText('POINT (243900 4432069)', 26912)").
Proof. by vm_compute. Qed.

(** C10, at a row whose [Lon_X] is [0] and that has no [Lat_Y]: the call
    raises [KeyError] instead of returning the row. *)
Lemma update_row_zero_without_latitude_raises :
  Sample.row_zero_without_lat !! "Lon_X" = Some (VInt 0)
  ∧ (_update_row Sample.float_truth Sample.float_str Sample.to_utm
       Sample.row_zero_without_lat).2 = Some (KeyError "Lat_Y").
Proof. split; by vm_compute. Qed.

(** The amended C10 on a row whose longitude is the float zero. *)
Lemma update_row_zero_coordinate_witness :
  (_update_row Sample.float_truth Sample.float_str Sample.to_utm
     Sample.row_zero_float).1
  = <["DataSource" := VStr datasource]> Sample.row_zero_float
  ∧ (_update_row Sample.float_truth Sample.float_str Sample.to_utm
       Sample.row_zero_float).1 !! "Shape" = Sample.row_zero_float !! "Shape"
  ∧ (∀ to_utm',
       _update_row Sample.float_truth Sample.float_str to_utm' Sample.row_zero_float
       = _update_row Sample.float_truth Sample.float_str Sample.to_utm
           Sample.row_zero_float)
  ∧ (_update_row Sample.float_truth Sample.float_str Sample.to_utm
       Sample.row_zero_float).2
    = match Sample.row_zero_float !! "Lon_X", Sample.row_zero_float !! "Lat_Y" with
      | None, _ => Some (KeyError "Lon_X")
      | Some _, None => Some (KeyError "Lat_Y")
      | Some _, Some _ => None
      end.
Proof.
  apply (update_row_zero_coordinate Sample.float_truth Sample.float_str
           Sample.to_utm Sample.row_zero_float (VFloat 0%Z)).
  - right. right. right. by exists 0%Z.
  - left. by vm_compute.
Defined.

(** The rows with an integer zero, with and without the other key. *)
Example update_row_zero_outcomes :
  _update_row Sample.float_truth Sample.float_str Sample.to_utm Sample.row_zero
  = (<["DataSource" := VStr datasource]> Sample.row_zero, None)
  ∧ _update_row Sample.float_truth Sample.float_str Sample.to_utm
      Sample.row_zero_without_lat
    = (<["DataSource" := VStr datasource]> Sample.row_zero_without_lat,
       Some (KeyError "Lat_Y")).
Proof. split; by vm_compute. Qed.

(** C9 on the row of [test_update_row_with_valid_lat_lon]. *)
Lemma update_row_frame_witness :
  let after :=
    (_update_row Sample.float_truth Sample.float_str Sample.to_utm
       Sample.row_valid).1 in
  after !! "DataSource" = Some (VStr "WQP")
  ∧ (∀ key, key ≠ "DataSource" → key ≠ "Shape" →
            after !! key = Sample.row_valid !! key)
  ∧ (after !! "Shape" ≠ Sample.row_valid !! "Shape" →
     is_Some (Sample.row_valid !! "Shape")
     ∧ ∃ x y, Sample.row_valid !! "Lon_X" = Some x
              ∧ Sample.row_valid !! "Lat_Y" = Some y
              ∧ truthy Sample.float_truth x = true
              ∧ truthy Sample.float_truth y = true)
  ∧ dom after = {["DataSource"]} ∪ dom Sample.row_valid.
Proof.
  exact (update_row_frame Sample.float_truth Sample.float_str Sample.to_utm
           Sample.row_valid).
Defined.


(** C6, on three rows with a driver that refuses the statement of the
    second. *)
Lemma insert_rows_error_aborts_witness :
  ∃ w',
    _insert_rows (Sample.refuses "insert into Stations values ('b')")
      ([["'a'"]] ++ ["'b'"] :: [["'c'"]]) "insert into Stations values ({})"
      Sample.world = (w', Raise (DriverError "refused"))
    ∧ cursor (self w') = None
    ∧ calls w'
      = ([Connect "DSN=ugs"; Execute "insert into Stations values ('a')"; Commit]
           ++ [Execute "insert into Stations values ('b')"])%list.
Proof.
  apply (insert_rows_error_aborts
           (Sample.refuses "insert into Stations values ('b')")
           "insert into Stations values ({})" [["'a'"]] [["'c'"]] ["'b'"]
           "insert into Stations values ('b')" (DriverError "refused")
           Sample.world
           {| self := {| db := {["connection_string" := "DSN=ugs"]};
                         results_folder := None; stations_folder := None;
                         cursor := Some PyodbcCursor |};
              calls := [Connect "DSN=ugs";
                        Execute "insert into Stations values ('a')"; Commit] |}).
  - by vm_compute.
  - by vm_compute.
  - by vm_compute.
Defined.

(** C5, on a program without a cursor: a call without rows connects and
    commits nothing. *)
Example insert_rows_no_rows_calls :
  calls (_insert_rows Sample.quiet [] sql_station_insert Sample.world).1
  = [Connect "DSN=ugs"].
Proof. by vm_compute. Qed.

(** Such a call comes from [_seed_stations] when every row is a bare
    duplicate: the sink gets an empty list and nothing is committed. *)
Example seed_stations_all_skipped_calls :
  calls (_seed_stations Sample.float_truth Sample.float_str Sample.to_utm
           Sample.quiet () Sample.cast Sample.normalize_station
           Sample.reorder_filter Sample.cast_for_sql
           [ADict {["StationId" := VStr "UTAHDWQ-1"]}] Sample.header
           (Some Sample.duplicates) Sample.world).1
  = [Connect "DSN=ugs"].
Proof. by vm_compute. Qed.

(** A call with one row that goes through ends with a commit. *)
Example insert_rows_one_row_calls :
  calls (_insert_rows Sample.quiet [["'a'"]] "insert into Stations values ({})"
           Sample.world).1
  = [Connect "DSN=ugs"; Execute "insert into Stations values ('a')"; Commit].
Proof. by vm_compute. Qed.

(** C4, on a file system with [data/WQP] and [data/WQP/Results] and without
    [data/WQP/Stations]: the constructor returns the program. *)
Theorem init_accepts_missing_stations :
  Sample.isdir "data/WQP/Stations" = false
  ∧ __init__ Sample.isdir ∅ (Some "data")
    = Ok {| db := ∅; results_folder := Some "data/WQP/Results";
            stations_folder := Some "data/WQP/Stations"; cursor := None |}.
Proof. split; by vm_compute. Qed.

(** * Further properties *)

(** ** The marker pattern *)

Lemma prefix_length (m s : string) :
  String.prefix m s = true → (String.length m ≤ String.length s)%nat.
Proof.
  revert s. induction m as [|a m IH]; intros [|b s]; simpl; try (done || lia).
  destruct (Ascii.ascii_dec a b); [|done]. intros H%IH. lia.
Qed.

Lemma wqx_sub_from_length (skip : nat) (s : string) :
  (String.length (Str.wqx_sub_from skip s) ≤ String.length s - skip)%nat
  ∧ (skip = 0%nat → Str.wqx_search s = true →
     String.length (Str.wqx_sub_from skip s) < String.length s)%nat.
Proof.
  revert skip. induction s as [|c s IH]; intros skip.
  { split; [simpl; lia | done]. }
  destruct skip as [|k].
  - cbn [Str.wqx_sub_from Str.wqx_search].
    destruct (String.prefix Str.wqx_marker (String c s)) eqn:Hp.
    + apply prefix_length in Hp. simpl in Hp.
      destruct (IH 4%nat) as [Hle _]. simpl. split; [lia | intros; lia].
    + destruct (IH 0%nat) as [Hle Hlt]. simpl. split; [lia|].
      intros _ Hs. specialize (Hlt eq_refl Hs). lia.
  - cbn [Str.wqx_sub_from]. destruct (IH k) as [Hle _]. simpl.
    split; [lia | done].
Qed.

(** X1. [re.sub(wqx_re, '-', id)] leaves an id as it is exactly when the id
    does not match the marker pattern: an id without the marker is never
    rewritten, an id with it always gets shorter. *)
Theorem wqx_sub_unchanged_iff (id : string) :
  Str.wqx_sub id = id ↔ Str.wqx_search id = false.
Proof.
  split.
  - intros Heq. destruct (Str.wqx_search id) eqn:Hs; [|done].
    destruct (wqx_sub_from_length 0 id) as [_ Hlt].
    specialize (Hlt eq_refl Hs). unfold Str.wqx_sub in Heq. rewrite Heq in Hlt. lia.
  - apply wqx_sub_bare.
Qed.

Lemma append_nil (s : string) : "" +:+ s = s.
Proof. reflexivity. Qed.

Lemma append_cons (c : ascii) (s t : string) : String c s +:+ t = String c (s +:+ t).
Proof. reflexivity. Qed.

Lemma prefix_app_false (m s t : string) :
  String.prefix m s = false →
  String.prefix m (s +:+ t) = true →
  ∃ m', m = s +:+ m' ∧ String.prefix m' t = true.
Proof.
  revert s. induction m as [|a m IH]; intros [|b s];
    rewrite ?append_nil, ?append_cons; simpl; try done.
  - intros _ Ht. by exists (String a m).
  - destruct (Ascii.ascii_dec a b) as [->|]; [|done].
    intros Hs Hst. destruct (IH s Hs Hst) as (m' & -> & Hm'). by exists m'.
Qed.

(** No match of the marker starts in [org] and ends in a marker that
    follows it. *)
Lemma prefix_marker_straddle (org rest : string) :
  org ≠ "" →
  String.prefix Str.wqx_marker org = false →
  String.prefix Str.wqx_marker (org +:+ Str.wqx_marker +:+ rest) = false.
Proof.
  intros Hne Hp.
  destruct (String.prefix Str.wqx_marker (org +:+ Str.wqx_marker +:+ rest)) eqn:Hq;
    [|done].
  destruct (prefix_app_false _ _ _ Hp Hq) as (m' & Hm & Hm').
  exfalso. unfold Str.wqx_marker in Hm.
  destruct org as [|c1 org]; [done|]. rewrite append_cons in Hm. injection Hm as Hc Hm.
  do 4 (destruct org as [|? org];
        [rewrite append_nil in Hm; rewrite <- Hm in Hm'; by vm_compute in Hm'
        |rewrite append_cons in Hm; injection Hm as ? Hm]).
  destruct org; [|done]. subst. by vm_compute in Hp.
Qed.

(** X2. The marker-suffixed form of an id strips to the id: for an [org]
    without the marker, [org_WQX-num] becomes [org-] followed by the
    stripped [num], and it matches the pattern. *)
Theorem wqx_sub_marked (org num : string) :
  Str.wqx_search org = false →
  Str.wqx_sub (org +:+ "_WQX-" +:+ num) = org +:+ "-" +:+ Str.wqx_sub num
  ∧ Str.wqx_search (org +:+ "_WQX-" +:+ num) = true.
Proof.
  unfold Str.wqx_sub. induction org as [|c org IH]; intros Hs.
  { rewrite !append_nil. by destruct num. }
  cbn [Str.wqx_search] in Hs. apply orb_false_iff in Hs as [Hp Hs].
  destruct (IH Hs) as [IHsub IHsearch].
  change (String c org +:+ "_WQX-" +:+ num)
    with (String c (org +:+ "_WQX-" +:+ num)).
  cbn [Str.wqx_sub_from Str.wqx_search].
  change (String c (org +:+ "_WQX-" +:+ num))
    with (String c org +:+ Str.wqx_marker +:+ num).
  rewrite (prefix_marker_straddle (String c org) num) by done.
  change (String c org +:+ "-" +:+ Str.wqx_sub_from 0 num)
    with (String c (org +:+ "-" +:+ Str.wqx_sub_from 0 num)).
  by rewrite IHsub, IHsearch.
Qed.

(** ** The row mapper on lists *)

Section MapperLists.

Context {F : Type}.
Variable query_csv : string → list string → string → list (list string).

Local Abbreviation Row := (gmap string (value F)).

Lemma py_dict_snoc {V} (pairs : list (string * V)) (key : string) (v : V) :
  py_dict (pairs ++ [(key, v)]) = <[key := v]> (py_dict pairs).
Proof. unfold py_dict. by rewrite foldl_app. Qed.

Lemma py_dict_lookup {V} (pairs : list (string * V)) (key : string) (v : V) :
  NoDup pairs.*1 → (key, v) ∈ pairs → py_dict pairs !! key = Some v.
Proof.
  induction pairs as [|[key' v'] pairs IH] using rev_ind; intros Hdup Hin.
  { by apply elem_of_nil in Hin. }
  rewrite py_dict_snoc. rewrite fmap_app in Hdup.
  apply NoDup_app in Hdup as (Hdup & Hfresh & _).
  apply elem_of_app in Hin as [Hin | Hin].
  - assert (key ≠ key') as Hne.
    { intros ->. apply (Hfresh key'); [|by left].
      apply list_elem_of_fmap. by exists (key', v). }
    rewrite lookup_insert_ne by done. by apply IH.
  - apply list_elem_of_singleton in Hin as [= -> ->]. by rewrite lookup_insert_eq.
Qed.

Lemma py_dict_dom {V} (pairs : list (string * V)) :
  dom (py_dict pairs) = list_to_set pairs.*1.
Proof.
  induction pairs as [|[key v] pairs IH] using rev_ind; [done|].
  rewrite py_dict_snoc, dom_insert_L, IH, fmap_app, list_to_set_app_L. simpl.
  rewrite (right_id_L ∅ (∪)). apply (comm_L (∪)).
Qed.

Lemma fst_zip_take {A B} (l : list A) (k : list B) :
  (zip l k).*1 = take (length k) l.
Proof.
  revert k. induction l as [|x l IH]; intros [|y k]; simpl; try done.
  by rewrite IH.
Qed.

Lemma mapped_header (config : gmap string string) (header : list string) :
  for_each (return_value_if_not_in_config (Some config)) header
  = Ok (mapped_name config <$> header).
Proof.
  induction header as [|key header IH]; [done|]. csimpl. rewrite IH.
  unfold mapped_name. by destruct (config !! key).
Qed.

(** X3. One row under a header: with distinct destination names, the
    dictionary the mapper returns has, for each column, the cell of the row
    under the destination name of the column (the name itself for a column
    the mapping does not know), and no other key. *)
Theorem etl_column_names_row (config : gmap string string) (header : list string)
    (cells : list (value F)) :
  header ≠ [] →
  cells ≠ [] →
  (∀ t, head cells ≠ Some (VTuple t)) →
  NoDup (mapped_name config <$> header) →
  ∃ row,
    _etl_column_names (AList cells) (Some config) (Some header) = Ok (EDict row)
    ∧ (∀ i key cell, header !! i = Some key → cells !! i = Some cell →
                     row !! mapped_name config key = Some cell)
    ∧ dom row = list_to_set (take (length cells) (mapped_name config <$> header)).
Proof.
  intros Hheader Hcells Htuple Hdup.
  exists (py_dict (zip (mapped_name config <$> header) cells)).
  assert (NoDup (zip (mapped_name config <$> header) cells).*1) as Hdup'.
  { rewrite fst_zip_take. eapply sublist_NoDup; [done | apply sublist_take]. }
  split; [|split].
  - unfold _etl_column_names.
    rewrite bool_decide_false by (by destruct cells).
    destruct header as [|key header]; [done|]. cbn [mbind result_mbind result_bind].
    rewrite mapped_header. cbn [result_bind].
    destruct cells as [|[] cells]; try done. by destruct (Htuple t).
  - intros i key cell Hkey Hcell. apply py_dict_lookup; [done|].
    apply list_elem_of_lookup. exists i. apply lookup_zip_Some.
    by rewrite list_lookup_fmap, Hkey.
  - by rewrite py_dict_dom, fst_zip_take.
Qed.

End MapperLists.

Section Samples.

Context {F : Type}.
Variable query_csv : string → list string → string → list (list string).

Local Abbreviation Row := (gmap string (value F)).

Lemma format_sql_sample_id (file_name sample_id : string) :
  Str.format sql_sample_id [file_name; fields_sample_id; sample_id]
  = Some (sample_id_statement file_name sample_id).
Proof. reflexivity. Qed.

Lemma header_cells_query_row (header : list string) :
  header_cells (F:=F) (query_row header) = Ok header.
Proof.
  unfold header_cells, query_row. simpl.
  induction header as [|key header IH]; [done|]. csimpl in *.
  destruct (for_each as_str (VStr <$> header)) as [keys|]; [|done].
  by injection IH as ->.
Qed.

Lemma for_each_query_rows (names : list string) (rows : list (list string)) :
  for_each (λ x : value F, cells ← iter_value x; Ok (py_dict (zip names cells)))
    (query_row <$> rows)
  = Ok ((λ cells, py_dict (zip names (VStr <$> cells))) <$> rows).
Proof. induction rows as [|row rows IH]; [done|]. csimpl. by rewrite IH. Qed.

(** X4. The samples of an id. When the query returns a header and rows,
    [_get_samples_for_id] returns one dictionary for each row, in the order
    of the rows, keyed by the destination names of the header. When it
    returns the header alone the method raises [IndexError], and when it
    returns nothing the method returns [None]. *)
Theorem get_samples_for_id_rows (sample_id : string) (rest : list string)
    (file_path : string) (config : option (gmap string string)) :
  let statement :=
    sample_id_statement (_get_file_name_without_extension file_path) sample_id in
  let names header := mapped_name (config_or config result_config) <$> header in
  match query_csv statement [file_path] TEMPDB with
  | [] =>
      _get_samples_for_id (F:=F) query_csv (sample_id :: rest) file_path config
      = Ok ENone
  | [header] =>
      _get_samples_for_id (F:=F) query_csv (sample_id :: rest) file_path config
      = Raise IndexError
  | header :: rows =>
      _get_samples_for_id (F:=F) query_csv (sample_id :: rest) file_path config
      = Ok (EList ((λ cells, py_dict (zip (names header) (VStr <$> cells))) <$> rows))
  end.
Proof.
  cbv zeta. unfold _get_samples_for_id. cbn [mbind result_mbind result_bind].
  rewrite format_sql_sample_id.
  destruct (query_csv _ [file_path] TEMPDB) as [|header rows]; [done|].
  unfold _etl_column_names. rewrite bool_decide_false by done.
  rewrite fmap_cons. cbn [mbind result_mbind result_bind].
  rewrite header_cells_query_row. cbn [mbind result_mbind result_bind].
  rewrite mapped_header. cbn [mbind result_mbind result_bind].
  destruct rows as [|row rows]; [done|].
  exact (f_equal (fmap EList)
           (for_each_query_rows
              (mapped_name (config_or config result_config) <$> header)
              (row :: rows))).
Qed.

End Samples.

(** ** Grouping the results and extracting the stations of an update *)

Section GroupingProperties.

Context {F : Type}.
Variable query_csv : string → list string → string → list (list string).

Local Abbreviation Row := (gmap string (value F)).

Lemma group_row_run (config : gmap string string) (header : list string)
    (groups : gmap string (list Row)) (line : list string) (row : Row)
    (sample_id : string) :
  _etl_column_names (csv_line line) (Some config) (Some header) = Ok (EDict row) →
  row !! "SampleId" = Some (VStr sample_id) →
  group_row config header groups line
  = Ok (<[sample_id := (default [] (groups !! sample_id) ++ [row])%list]> groups).
Proof.
  intros Hmap Hid. unfold group_row. rewrite Hmap. simpl.
  unfold getitem. rewrite Hid. simpl. by destruct (groups !! sample_id).
Qed.

Lemma group_rows_run (config : gmap string string) (header : list string)
    (lines : list (list string)) (mapped : list (Row * string))
    (groups : gmap string (list Row)) :
  Forall2 (λ line m,
             _etl_column_names (csv_line line) (Some config) (Some header)
             = Ok (EDict m.1)
             ∧ m.1 !! "SampleId" = Some (VStr m.2)) lines mapped →
  ∃ groups',
    group_rows config header groups lines = Ok groups'
    ∧ ∀ sample_id,
        groups' !! sample_id
        = match groups !! sample_id,
                (filter (λ m, m.2 = sample_id) mapped).*1 with
          | Some rows, new => Some (rows ++ new)%list
          | None, [] => None
          | None, new => Some new
          end.
Proof.
  intros Hrows. revert groups.
  induction Hrows as [|line [row id] lines mapped [Hmap Hid] _ IH]; intros groups.
  { exists groups. split; [done|]. intros s. simpl.
    destruct (groups !! s); [by rewrite app_nil_r | done]. }
  simpl in Hmap, Hid. cbn [group_rows].
  rewrite (group_row_run _ _ _ _ _ _ Hmap Hid).
  destruct (IH (<[id := (default [] (groups !! id) ++ [row])%list]> groups))
    as (groups' & -> & Hgroups).
  exists groups'. split; [done|]. intros s. rewrite Hgroups, filter_cons. simpl.
  destruct (decide (id = s)) as [->|Hne].
  - rewrite lookup_insert_eq. csimpl.
    destruct (groups !! s); simpl; [by rewrite <- app_assoc | done].
  - rewrite lookup_insert_ne by done. done.
Qed.

(** X5. Grouping by sample id. When every line of the answer maps to a row
    with a [SampleId], the dictionary of [_group_rows_by_id] has one key for
    each sample id seen, and the group of an id is the list of the rows of
    that id, in the order of the lines. *)
Theorem group_rows_by_id_groups (header : list string) (lines : list (list string))
    (config : option (gmap string string)) (mapped : list (Row * string)) :
  Forall2 (λ line m,
             _etl_column_names (csv_line line)
               (Some (config_or config result_config)) (Some header)
             = Ok (EDict m.1)
             ∧ m.1 !! "SampleId" = Some (VStr m.2)) lines mapped →
  ∃ groups,
    _group_rows_by_id (Some (header :: lines)) config = Ok (Some groups)
    ∧ (∀ sample_id,
         groups !! sample_id
         = match (filter (λ m, m.2 = sample_id) mapped).*1 with
           | [] => None
           | rows => Some rows
           end)
    ∧ dom groups = list_to_set mapped.*2.
Proof.
  intros Hrows.
  destruct (group_rows_run _ _ _ _ ∅ Hrows) as (groups & Hrun & Hgroups).
  exists groups. unfold _group_rows_by_id. rewrite Hrun.
  split; [done|].
  assert (∀ s, groups !! s = match (filter (λ m, m.2 = s) mapped).*1 with
                             | [] => None
                             | rows => Some rows
                             end) as Hspec.
  { intros s. rewrite Hgroups, lookup_empty.
    by destruct ((filter (λ m, m.2 = s) mapped).*1). }
  split; [done|].
  apply set_eq. intros s. rewrite elem_of_dom, Hspec, elem_of_list_to_set.
  rewrite list_elem_of_fmap. split.
  - intros Hsome.
    destruct (filter (λ m, m.2 = s) mapped) as [|m rest] eqn:Hf;
      [by destruct Hsome|].
    assert (m ∈ filter (λ m, m.2 = s) mapped) as Hin by (rewrite Hf; left).
    apply list_elem_of_filter in Hin as [Hm Hin]. by exists m.
  - intros (m & -> & Hin).
    assert (m ∈ filter (λ m', m'.2 = m.2) mapped) as Hin'
      by by apply list_elem_of_filter.
    destruct (filter (λ m', m'.2 = m.2) mapped) as [|m' rest];
      [by apply elem_of_nil in Hin'|]. by eexists.
Qed.

(** A cursor that is a false value: [_group_rows_by_id] returns [None],
    and [_remove_existing_results] cannot take it. An answer without a
    header line stops the iteration. *)
Lemma group_rows_by_id_edges (config : option (gmap string string)) :
  _group_rows_by_id (F:=F) None config = Ok None
  ∧ _group_rows_by_id (F:=F) (Some []) config = Raise StopIteration.
Proof. done. Qed.

Lemma station_in_wanted (row : Row) (station_ids : list string) :
  is_Some (row !! "StationId") →
  station_in row station_ids = Ok (station_wanted station_ids row).
Proof.
  intros [v Hv]. unfold station_in, station_wanted, getitem. rewrite Hv.
  by destruct v.
Qed.

Lemma extract_stations_run (station_ids : list string) (header : option (list string))
    (rows : list (etl_in F)) (mapped : list Row) (found : list Row) :
  Forall2 (λ row d,
             _etl_column_names row (Some station_config) header = Ok (EDict d)
             ∧ is_Some (d !! "StationId")) rows mapped →
  extract_stations station_ids header found rows
  = Ok (found ++ filter (λ d, station_wanted station_ids d = true) mapped)%list.
Proof.
  intros Hrows. revert found.
  induction Hrows as [|row d rows mapped [Hmap Hid] _ IH]; intros found.
  { by rewrite app_nil_r. }
  cbn [extract_stations]. rewrite Hmap. simpl.
  rewrite (station_in_wanted _ _ Hid). simpl. rewrite IH.
  destruct (station_wanted station_ids d) eqn:Hw.
  - rewrite filter_cons_True by done. by rewrite <- app_assoc.
  - rewrite filter_cons_False by (by rewrite Hw). done.
Qed.

(** X6. Extraction by id. When every row of the cursor maps to a dictionary
    with a [StationId], [_extract_stations_by_id] returns the dictionaries
    whose id is in [station_ids], in the order of the cursor, and leaves the
    others out. *)
Theorem extract_stations_by_id_filter (rows : list (etl_in F))
    (station_ids : list string) (header : option (list string))
    (mapped : list Row) :
  Forall2 (λ row d,
             _etl_column_names row (Some station_config) header = Ok (EDict d)
             ∧ is_Some (d !! "StationId")) rows mapped →
  _extract_stations_by_id (Some rows) station_ids header
  = Ok (Some (filter (λ d, station_wanted station_ids d = true) mapped)).
Proof.
  intros Hrows. unfold _extract_stations_by_id.
  by rewrite (extract_stations_run _ _ _ _ [] Hrows).
Qed.

Lemma extract_stations_wanted (station_ids : list string)
    (header : option (list string)) (rows : list (etl_in F))
    (found stations : list Row) :
  Forall (λ d, station_wanted station_ids d = true) found →
  extract_stations station_ids header found rows = Ok stations →
  Forall (λ d, station_wanted station_ids d = true) stations.
Proof.
  revert found. induction rows as [|row rows IH]; intros found Hfound; simpl.
  { by intros [= <-]. }
  destruct (_etl_column_names row (Some station_config) header) as [mapped|];
    [|done]. simpl.
  destruct (mapped_row mapped) as [d|]; [|done]. simpl.
  unfold station_in, getitem.
  destruct (d !! "StationId") as [v|] eqn:Hv; [|done]. simpl.
  assert (∀ b, (b = true → station_wanted station_ids d = true) →
               extract_stations station_ids header
                 (if b then (found ++ [d])%list else found) rows = Ok stations →
               Forall (λ d, station_wanted station_ids d = true) stations) as Hstep.
  { intros b Hb. apply IH. destruct b; [|done].
    apply Forall_app. split; [done|]. constructor; [by apply Hb|done]. }
  destruct v; simpl; try (apply (Hstep false); done).
  apply Hstep. unfold station_wanted. by rewrite Hv.
Qed.

(** X7. What is extracted can be reconciled: after a successful extraction
    every station has a string [StationId] among [station_ids], so
    [_get_wqx_duplicate_ids] raises nothing on the extracted stations, and
    its set holds only stripped forms of the wanted ids. *)
Theorem extracted_stations_reconcile (cursor : list (etl_in F))
    (station_ids : list string) (header : option (list string))
    (stations : list Row) :
  _extract_stations_by_id (Some cursor) station_ids header = Ok (Some stations) →
  Forall (λ d, ∃ id, d !! "StationId" = Some (VStr id) ∧ id ∈ station_ids) stations
  ∧ ∃ wqx, _get_wqx_duplicate_ids query_csv (SrcStations stations) = Ok wqx
           ∧ ∀ x, x ∈ wqx → ∃ id, id ∈ station_ids ∧ x = Str.wqx_sub id.
Proof.
  unfold _extract_stations_by_id. intros Hrun.
  destruct (extract_stations station_ids header [] cursor) as [found|] eqn:Hfound;
    [|done].
  injection Hrun as ->.
  pose proof (extract_stations_wanted _ _ _ _ _ (Forall_nil_2 _) Hfound) as Hwanted.
  assert (Forall (λ d, ∃ id, d !! "StationId" = Some (VStr id) ∧ id ∈ station_ids)
            stations) as Hids.
  { eapply Forall_impl; [exact Hwanted|]. intros d. unfold station_wanted.
    destruct (d !! "StationId") as [[]|]; try done.
    intros ?%bool_decide_eq_true. by eexists. }
  split; [done|].
  assert (∃ ids, for_each station_id_of stations = Ok ids
                 ∧ Forall (λ id, id ∈ station_ids) ids) as (ids & Hrun & Hin).
  { clear Hwanted Hfound.
    induction Hids as [|d stations (id & Hid & Hin) _ (ids & IH & Hall)];
      [by exists []|].
    exists (id :: ids). simpl. apply (station_id_of_Ok query_csv) in Hid.
    rewrite Hid, IH. split; [done|]. by constructor. }
  simpl. rewrite Hrun. simpl. eexists. split; [done|].
  intros x. rewrite elem_of_list_to_set, list_elem_of_fmap.
  intros (id & -> & [_ Hid]%list_elem_of_filter).
  exists id. split; [|done]. rewrite Forall_forall in Hin. by apply Hin.
Qed.

End GroupingProperties.

(** ** The sink and the queries with a driver that raises nothing *)

Section QuietDriver.

Context {F : Type}.
Variable driver : list call → call → option exn.
Variable Stations : gset string.
Variable fetchone : list call → option (list (value F)).
Variable fetchall : list call → list (list string).

Local Abbreviation Row := (gmap string (value F)).

Local Ltac run :=
  unfold mbind, mret, M_mbind, M_mret, M_bind, M_ret, raise, lift, try_except,
    get_cursor, put_cursor, get_db in *.

(** Opening the cursor with a driver that accepts the connection. *)
Lemma open_cursor_run (w : World) (cs : string) :
  db (self w) !! "connection_string" = Some cs →
  (cursor (self w) = None → driver (calls w) (Connect cs) = None) →
  open_cursor driver w
  = match cursor (self w) with
    | Some _ => (w, Ok ())
    | None => (set_cursor (Some PyodbcCursor) (log_call (Connect cs) w), Ok ())
    end.
Proof.
  intros Hdb Hdrv. unfold open_cursor, driver_call. run.
  destruct (cursor (self w)); [done|]. rewrite Hdb, Hdrv; done.
Qed.

Lemma insert_loop_quiet (tmpl : string) (rows : list (list string))
    (statements : list string) (i : Z) (w : World) :
  (∀ history c, driver history c = None) →
  cursor (self w) = Some PyodbcCursor →
  Forall2 (λ row statement, Str.format tmpl [Str.join "," row] = Some statement)
    rows statements →
  insert_loop driver tmpl rows i w
  = ({| self := self w; calls := calls w ++ sink_trace i statements |}, Ok ()).
Proof.
  intros Hdrv Hc Hrows. revert i w Hc.
  induction Hrows as [|row statement rows statements Hfmt _ IH]; intros i w Hc.
  { simpl. run. rewrite app_nil_r. by destruct w. }
  cbn [insert_loop sink_trace]. run. rewrite Hfmt.
  rewrite try_execute_run, Hdrv by done.
  set (w1 := log_call (Execute statement) w).
  assert (cursor (self w1) = Some PyodbcCursor) as Hc1 by done.
  unfold batch_size.
  destruct ((i + 1) `mod` 5000 =? 0)%Z.
  - rewrite on_cursor_ok, Hdrv by done.
    rewrite on_cursor_ok, Hdrv by done.
    rewrite IH by done. simpl. by rewrite <- !app_assoc.
  - rewrite on_cursor_ok, Hdrv by done.
    rewrite IH by done. simpl. by rewrite <- !app_assoc.
Qed.

(** The sink with a driver that raises nothing. *)
Lemma insert_rows_quiet (tmpl : string) (rows : list (list string))
    (statements : list string) (cs : string) (w : World) :
  (∀ history c, driver history c = None) →
  db (self w) !! "connection_string" = Some cs →
  Forall2 (λ row statement, Str.format tmpl [Str.join "," row] = Some statement)
    rows statements →
  ∃ w', _insert_rows driver rows tmpl w = (w', Ok ())
        ∧ cursor (self w') = Some PyodbcCursor
        ∧ calls w'
          = (calls w
               ++ match cursor (self w) with
                  | Some _ => []
                  | None => [Connect cs]
                  end
               ++ sink_trace 1 statements)%list.
Proof.
  intros Hdrv Hdb Hrows. unfold _insert_rows. run.
  rewrite (open_cursor_run w cs Hdb) by (intros; apply Hdrv).
  destruct (cursor (self w)) as [[]|] eqn:Hc.
  - rewrite (insert_loop_quiet tmpl rows statements) by done.
    eexists. split; [done|]. split; [done|]. done.
  - rewrite (insert_loop_quiet tmpl rows statements) by done.
    eexists. split; [done|]. split; [done|]. simpl. by rewrite <- app_assoc.
Qed.

(** X8. The calls of a sink whose statements all go through. With a driver
    that raises nothing, [_insert_rows] connects only if the program has no
    cursor, then executes the statement of each row once, in the order of
    the rows, each followed by a commit (two at a full batch); the cursor is
    in place when it returns. *)
Theorem insert_rows_trace (tmpl : string) (rows : list (list string))
    (statements : list string) (cs : string) (w : World) :
  (∀ history c, driver history c = None) →
  db (self w) !! "connection_string" = Some cs →
  Forall2 (λ row statement, Str.format tmpl [Str.join "," row] = Some statement)
    rows statements →
  ∃ w', _insert_rows driver rows tmpl w = (w', Ok ())
        ∧ cursor (self w') = Some PyodbcCursor
        ∧ calls w'
          = (calls w
               ++ match cursor (self w) with
                  | Some _ => []
                  | None => [Connect cs]
                  end
               ++ sink_trace 1 statements)%list.
Proof. apply insert_rows_quiet. Qed.

Lemma open_cursor_quiet (w : World) :
  (∀ history c, driver history c = None) →
  is_Some (cursor (self w)) ∨ is_Some (db (self w) !! "connection_string") →
  ∃ w0, open_cursor driver w = (w0, Ok ())
        ∧ cursor (self w0) = Some PyodbcCursor.
Proof.
  intros Hdrv Hopen. unfold open_cursor, driver_call. run.
  destruct (cursor (self w)) as [[]|] eqn:Hc; [by eexists|].
  destruct Hopen as [[? [=]] | [cs ->]]. rewrite Hdrv. by eexists.
Qed.

Lemma format_sql_new_results (values : string) :
  ∃ statement, Str.format sql_new_results [values] = Some statement.
Proof. by eexists. Qed.

(** X9. Results that the destination already has. With a driver that
    raises nothing, [_remove_existing_results] returns the groups of the
    sample ids found in the rows that [fetchall] returns for its statement,
    each group as it was, and no other key. *)
Theorem remove_existing_results_kept (results : gmap string (list Row)) (w : World) :
  (∀ history c, driver history c = None) →
  is_Some (cursor (self w)) ∨ is_Some (db (self w) !! "connection_string") →
  ∃ w' kept,
    _remove_existing_results driver fetchall (Some results) w = (w', Ok kept)
    ∧ kept ⊆ results
    ∧ ∀ sample_id rows,
        kept !! sample_id = Some rows
        ↔ results !! sample_id = Some rows
          ∧ sample_id ∈ concat (fetchall (calls w')).
Proof.
  intros Hdrv Hopen. unfold _remove_existing_results, _get_unique_sample_ids.
  cbv zeta.
  destruct (format_sql_new_results
              (Str.join "," ((λ sample_id, "('" +:+ sample_id +:+ "')")
                               <$> (map_to_list results).*1)))
    as [statement Hfmt].
  destruct (open_cursor_quiet w Hdrv Hopen) as (w0 & Hw0 & Hc0).
  run. rewrite Hw0, Hfmt. rewrite on_cursor_ok, Hdrv by done.
  unfold fetch_all. simpl.
  eexists _, _. split; [done|]. split; [apply map_filter_subseteq|].
  intros sample_id rows. rewrite map_lookup_filter_Some. simpl. done.
Qed.

Lemma elem_of_concat {A} (x : A) (ls : list (list A)) :
  x ∈ concat ls ↔ ∃ l, x ∈ l ∧ l ∈ ls.
Proof.
  induction ls as [|l ls IH]; simpl.
  { split; [by intros ?%elem_of_nil | by intros (? & _ & ?%elem_of_nil)]. }
  rewrite elem_of_app, IH. split.
  - intros [Hin | (l' & Hin & Hl')]; [exists l; split; [done|left]|].
    exists l'. split; [done|by right].
  - intros (l' & Hin & [-> | Hl']%elem_of_cons); [by left|].
    right. by exists l'.
Qed.

(** A list whose rows all have a string [StationId]. *)
Lemma for_each_station_ids (rows : list Row) :
  Forall (λ row, ∃ id, row !! "StationId" = Some (VStr id)) rows →
  ∃ ids, for_each station_id_of rows = Ok ids
         ∧ ∀ x, x ∈ ids ↔ ∃ row, row ∈ rows ∧ row !! "StationId" = Some (VStr x).
Proof.
  induction 1 as [|row rows [id Hid] _ (ids & IH & Hids)].
  { exists []. split; [done|]. intros x. split; [by intros ?%elem_of_nil|].
    by intros (? & ?%elem_of_nil & _). }
  exists (id :: ids). simpl. unfold station_id_of at 1, getitem.
  rewrite Hid. simpl. rewrite IH. split; [done|].
  intros x. rewrite elem_of_cons, Hids. split.
  - intros [-> | (row' & Hin & Hx)]; [exists row; split; [left|done]|].
    exists row'. split; [by right|done].
  - intros (row' & [-> | Hin]%elem_of_cons & Hx).
    + left. congruence.
    + right. by exists row'.
Qed.

(** X10. The stations a batch of results needs. With a driver that raises
    nothing and results whose rows all have a string [StationId],
    [_find_new_station_ids] returns, without repetition, the station ids
    that some row refers to and that the destination does not store. An
    empty batch gives the empty list without a call on the driver. *)
Theorem find_new_station_ids_new (rows : gmap string (list Row)) (w : World) :
  (∀ history c, driver history c = None) →
  is_Some (cursor (self w)) ∨ is_Some (db (self w) !! "connection_string") →
  map_Forall (λ _ group,
                Forall (λ row, ∃ id, row !! "StationId" = Some (VStr id)) group)
    rows →
  ∃ w' station_ids,
    _find_new_station_ids driver Stations rows w = (w', Ok station_ids)
    ∧ NoDup station_ids
    ∧ (∀ x, x ∈ station_ids
            ↔ (x ∉ Stations)
              ∧ ∃ sample_id group row,
                  rows !! sample_id = Some group ∧ row ∈ group
                  ∧ row !! "StationId" = Some (VStr x))
    ∧ (rows = ∅ → w' = w).
Proof.
  intros Hdrv Hopen Hrows. unfold _find_new_station_ids.
  case_bool_decide as Hempty.
  { subst rows. exists w, []. run. split; [done|]. split; [constructor|].
    split; [|done]. intros x. split; [by intros ?%elem_of_nil|].
    intros (_ & s & g & r & Hs & _). by rewrite lookup_empty in Hs. }
  assert (Forall (λ row, ∃ id, row !! "StationId" = Some (VStr id))
            (concat (map_to_list rows).*2)) as Hall.
  { apply Forall_forall. intros row (group & Hrow & Hgroup)%elem_of_concat.
    apply list_elem_of_fmap in Hgroup as ([s g] & -> & Hsg).
    apply elem_of_map_to_list in Hsg.
    specialize (Hrows s g Hsg). simpl in Hrows.
    rewrite Forall_forall in Hrows. by apply Hrows. }
  destruct (for_each_station_ids _ Hall) as (ids & Hids & Hmem).
  run. rewrite Hids.
  destruct (get_unique_station_ids_run driver Stations
              (elements (list_to_set ids : gset string)) w Hdrv Hopen)
    as [w' Hrun].
  rewrite Hrun, for_each_first.
  exists w', (filter (λ station_id, station_id ∉ Stations)
                (elements (list_to_set ids : gset string))).
  split; [done|]. split; [apply NoDup_filter, NoDup_elements|].
  split; [|done].
  intros x. rewrite list_elem_of_filter, elem_of_elements, elem_of_list_to_set, Hmem.
  split.
  - intros (Hnew & row & Hin & Hx). split; [done|].
    apply elem_of_concat in Hin as (group & Hrow & Hgroup).
    apply list_elem_of_fmap in Hgroup as ([s g] & -> & Hsg).
    apply elem_of_map_to_list in Hsg. by exists s, g, row.
  - intros (Hnew & s & g & row & Hs & Hin & Hx). split; [done|].
    exists row. split; [|done]. apply elem_of_concat. exists g.
    split; [done|]. apply list_elem_of_fmap. exists (s, g).
    split; [done|]. by apply elem_of_map_to_list.
Qed.

(** The two ways through [_get_most_recent_result_date]. *)
Lemma most_recent_result_date_cases (w w0 : World) :
  open_cursor driver w = (w0, Ok ()) →
  _get_most_recent_result_date driver fetchone w
  = match driver (calls w0) (Execute sql_max_sample_date) with
    | Some e =>
        (set_cursor None (log_call (Execute sql_max_sample_date) w0), Raise e)
    | None =>
        (log_call (Execute sql_max_sample_date) w0,
         Ok match fetchone (calls w0 ++ [Execute sql_max_sample_date]) with
            | Some [date] => Some date
            | _ => None
            end)
    end.
Proof.
  intros Hopen. pose proof (open_cursor_opened _ _ _ Hopen) as Hc.
  unfold _get_most_recent_result_date. run. rewrite Hopen.
  rewrite on_cursor_ok by done.
  destruct (driver (calls w0) (Execute sql_max_sample_date)) as [e|].
  - unfold del_cursor. run. simpl. by rewrite Hc.
  - unfold fetch_one. simpl.
    by destruct (fetchone _) as [[|date [|]]|].
Qed.

(** X11. The date of the last result. Once the cursor is there, a statement
    that the driver refuses takes the cursor away and its error is raised
    again; a statement that goes through gives the one column of the row
    [fetchone] returns, and [None] when there is no row or the row has
    another width. *)
Theorem most_recent_result_date_run (w w0 : World) :
  open_cursor driver w = (w0, Ok ()) →
  _get_most_recent_result_date driver fetchone w
  = match driver (calls w0) (Execute sql_max_sample_date) with
    | Some e =>
        (set_cursor None (log_call (Execute sql_max_sample_date) w0), Raise e)
    | None =>
        (log_call (Execute sql_max_sample_date) w0,
         Ok match fetchone (calls w0 ++ [Execute sql_max_sample_date]) with
            | Some [date] => Some date
            | _ => None
            end)
    end.
Proof. apply most_recent_result_date_cases. Qed.

End QuietDriver.

(** ** The pipelines of the results and of the stations of an update *)

Section Pipelines.

Context {F : Type}.
Variable float_truth : F → bool.
Variable float_str : F → string.
Variable to_utm : value F → value F → F * F.
Variable query_csv : string → list string → string → list (list string).
Variable driver : list call → call → option exn.
Context {Schema : Type}.
Variable schema_station schema_result : Schema.
Variable Caster_cast : gmap string (value F) → Schema → gmap string (value F).
Variable Normalizer_normalize_station : gmap string (value F) → gmap string (value F).
Variable Normalizer_normalize_sample : gmap string (value F) → gmap string (value F).
Variable ChargeBalancer_get_charge_balance :
  list (gmap string (value F)) → list (gmap string (value F)).
Variable Normalizer_reorder_filter :
  gmap string (value F) → Schema → list (string * value F).
Variable Caster_cast_for_sql : list (string * value F) → list (string * string).

Local Abbreviation Row := (gmap string (value F)).

Local Ltac run :=
  unfold mbind, mret, M_mbind, M_mret, M_bind, M_ret, raise, lift, try_except,
    get_cursor, put_cursor, get_db in *.

Lemma updated_row_cases (row : Row) :
  updated_row float_truth float_str to_utm row
  = match row !! "Lon_X", row !! "Lat_Y" with
    | None, _ => Raise (KeyError "Lon_X")
    | Some _, None => Raise (KeyError "Lat_Y")
    | Some _, Some _ => Ok (_update_row float_truth float_str to_utm row).1
    end.
Proof.
  pose proof (update_row_cases float_truth float_str to_utm row) as H.
  cbv zeta in H. unfold updated_row.
  destruct (row !! "Lon_X") as [x|]; [|by rewrite H].
  destruct (row !! "Lat_Y") as [y|]; [|by rewrite H].
  destruct (truthy float_truth x && truthy float_truth y); [|by rewrite H].
  destruct (bool_decide (is_Some (row !! "Shape"))); by rewrite H.
Qed.

(** What the sink gets for a sample group: the rendered samples in their
    order, followed by the rendered charge balance rows. *)
Lemma seed_results_sink (samples updated : list Row) (w : World) :
  for_each (updated_row float_truth float_str to_utm)
    ((λ sample, Caster_cast sample schema_result) <$> samples) = Ok updated →
  let normalized := Normalizer_normalize_sample <$> updated in
  let render sample :=
    (Caster_cast_for_sql (Normalizer_reorder_filter sample schema_result)).*2 in
  _seed_results float_truth float_str to_utm driver schema_result Caster_cast
    Normalizer_normalize_sample ChargeBalancer_get_charge_balance
    Normalizer_reorder_filter Caster_cast_for_sql samples w
  = _insert_rows driver
      ((render <$> normalized)
         ++ (render <$> ChargeBalancer_get_charge_balance normalized))%list
      sql_result_insert w.
Proof.
  intros Hupdated normalized render. unfold _seed_results, result_values.
  run. cbv zeta. rewrite Hupdated. simpl.
  by rewrite <- !list_fmap_compose, fmap_app.
Qed.

Lemma format_sql_result_insert (values : string) :
  Str.format sql_result_insert [values] = Some (result_insert_statement values).
Proof. reflexivity. Qed.

(** X12. The statements of a sample group. With a driver that raises
    nothing, when every cast sample has its two coordinate keys,
    [_seed_results] executes one insert for each sample, in the order of the
    samples, then one for each charge balance row, which are made from the
    normalized samples; each insert is followed by its commit, and the
    connection is opened only if the program has no cursor. *)
Theorem seed_results_trace (samples updated : list Row) (cs : string) (w : World) :
  (∀ history c, driver history c = None) →
  db (self w) !! "connection_string" = Some cs →
  for_each (updated_row float_truth float_str to_utm)
    ((λ sample, Caster_cast sample schema_result) <$> samples) = Ok updated →
  let normalized := Normalizer_normalize_sample <$> updated in
  let statement sample :=
    result_insert_statement
      (Str.join ","
         (Caster_cast_for_sql (Normalizer_reorder_filter sample schema_result)).*2) in
  ∃ w',
    _seed_results float_truth float_str to_utm driver schema_result Caster_cast
      Normalizer_normalize_sample ChargeBalancer_get_charge_balance
      Normalizer_reorder_filter Caster_cast_for_sql samples w
    = (w', Ok ())
    ∧ cursor (self w') = Some PyodbcCursor
    ∧ calls w'
      = (calls w
           ++ match cursor (self w) with
              | Some _ => []
              | None => [Connect cs]
              end
           ++ sink_trace 1
                ((statement <$> normalized)
                   ++ (statement <$> ChargeBalancer_get_charge_balance normalized)))%list.
Proof.
  intros Hdrv Hdb Hupdated normalized statement.
  rewrite (seed_results_sink samples updated w Hupdated). cbv zeta.
  fold normalized. rewrite <- !fmap_app.
  apply (insert_rows_quiet driver sql_result_insert _ _ cs w Hdrv Hdb).
  induction (normalized ++ ChargeBalancer_get_charge_balance normalized)%list
    as [|sample rest IH]; constructor; [|done].
  apply format_sql_result_insert.
Qed.

(** X13. A sample without a coordinate key stops its group before the sink:
    [_seed_results] raises [KeyError] and the driver receives no call. *)
Theorem seed_results_missing_coordinate (samples : list Row) (sample : Row)
    (w : World) :
  sample ∈ samples →
  Caster_cast sample schema_result !! "Lon_X" = None
  ∨ Caster_cast sample schema_result !! "Lat_Y" = None →
  ∃ key,
    _seed_results float_truth float_str to_utm driver schema_result Caster_cast
      Normalizer_normalize_sample ChargeBalancer_get_charge_balance
      Normalizer_reorder_filter Caster_cast_for_sql samples w
    = (w, Raise (KeyError key)).
Proof.
  intros Hin Hmissing.
  assert (∃ key, for_each (updated_row float_truth float_str to_utm)
                   ((λ sample, Caster_cast sample schema_result) <$> samples)
                 = Raise (KeyError key)) as [key Hkey].
  { induction samples as [|first samples IH]; [by apply elem_of_nil in Hin|].
    csimpl. rewrite updated_row_cases.
    apply elem_of_cons in Hin as [<- | Hin].
    - destruct Hmissing as [Hlon | Hlat].
      + rewrite Hlon. by exists "Lon_X".
      + rewrite Hlat.
        destruct (Caster_cast sample schema_result !! "Lon_X");
          [exists "Lat_Y" | exists "Lon_X"]; reflexivity.
    - destruct (IH Hin) as [key Hkey]. rewrite Hkey.
      destruct (Caster_cast first schema_result !! "Lon_X");
        [|exists "Lon_X"; reflexivity].
      destruct (Caster_cast first schema_result !! "Lat_Y");
        [exists key | exists "Lat_Y"]; reflexivity. }
  exists key. unfold _seed_results, result_values. run. cbv zeta.
  by rewrite Hkey.
Qed.

Lemma seed_stations_run (rows : list (etl_in F)) (header : option (list string))
    (wqx : gset string) (mapped : list (Row * string)) (values : list (list string))
    (w : World) :
  Forall2 (λ row m,
             _etl_column_names row (Some station_config) header = Ok (EDict m.1)
             ∧ m.1 !! "StationId" = Some (VStr m.2)) rows mapped →
  for_each
    (station_values float_truth float_str to_utm schema_station Caster_cast
       Normalizer_normalize_station Normalizer_reorder_filter Caster_cast_for_sql)
    (filter (λ m, bare_duplicate wqx m.2 = false) mapped).*1 = Ok values →
  _seed_stations float_truth float_str to_utm driver schema_station Caster_cast
    Normalizer_normalize_station Normalizer_reorder_filter Caster_cast_for_sql
    rows header (Some wqx) w
  = _insert_rows driver values sql_station_insert w.
Proof.
  intros Hrows Hvalues.
  assert (∃ stations,
            for_each
              (seed_station float_truth float_str to_utm schema_station
                 Caster_cast Normalizer_normalize_station
                 Normalizer_reorder_filter Caster_cast_for_sql header (Some wqx))
              rows = Ok stations
            ∧ omap id stations = values) as (stations & Hrun & <-).
  { revert values Hvalues.
    induction Hrows as [|row [station id] rows mapped [Hmap Hid] _ IH];
      intros values Hvalues.
    - simpl in Hvalues. injection Hvalues as <-. by exists [].
    - simpl in Hmap, Hid. cbn [for_each].
      rewrite (seed_station_row _ _ _ _ _ _ _ _ _ _ _ _ _ Hmap Hid).
      destruct (bare_duplicate wqx id) eqn:Hskip.
      + rewrite filter_cons_False in Hvalues by (simpl; by rewrite Hskip).
        destruct (IH _ Hvalues) as (stations & -> & <-). by eexists.
      + rewrite filter_cons_True in Hvalues by done. csimpl in Hvalues.
        destruct (station_values _ _ _ _ _ _ _ _ station) as [v|]; [|done].
        simpl.
        destruct (for_each _ (filter _ mapped).*1) as [vs|] eqn:Hvs; [|done].
        injection Hvalues as <-.
        destruct (IH _ eq_refl) as (stations & -> & <-). by eexists. }
  unfold _seed_stations, lift, mbind, M_mbind, M_bind. by rewrite Hrun.
Qed.

(** X14. One row for a pair in the stations of an update. The extracted
    stations all have a string [StationId]. [update] computes their
    duplicate ids and seeds them: the sink gets the marker-suffixed stations
    and the bare stations that have no marker-suffixed counterpart among
    them, in their order; a bare station whose marker-suffixed form is in
    the batch is left out. *)
Theorem seed_new_stations_pairs (mapped : list (Row * string))
    (header : list string) (values : list (list string)) (w : World) :
  Forall (λ m, m.1 !! "StationId" = Some (VStr m.2)) mapped →
  for_each
    (station_values float_truth float_str to_utm schema_station Caster_cast
       Normalizer_normalize_station Normalizer_reorder_filter Caster_cast_for_sql)
    (filter (λ m, Str.wqx_search m.2 = true
                  ∨ ¬ Exists (λ m', Str.wqx_search m'.2 = true
                                    ∧ Str.wqx_sub m'.2 = m.2) mapped)
       mapped).*1 = Ok values →
  seed_new_stations float_truth float_str to_utm query_csv driver schema_station
    Caster_cast Normalizer_normalize_station Normalizer_reorder_filter
    Caster_cast_for_sql mapped.*1 header w
  = _insert_rows driver values sql_station_insert w.
Proof.
  intros Hids Hvalues. unfold seed_new_stations.
  assert (for_each station_id_of mapped.*1 = Ok mapped.*2) as Hrun.
  { clear Hvalues. induction Hids as [|[station id] mapped Hid _ IH]; [done|].
    csimpl. unfold station_id_of at 1, getitem. simpl in Hid. rewrite Hid.
    simpl. by rewrite IH. }
  run. simpl. rewrite Hrun. simpl.
  set (wqx := list_to_set _ : gset string).
  assert (∀ id, bare_duplicate wqx id = false
                ↔ Str.wqx_search id = true
                  ∨ ¬ Exists (λ m', Str.wqx_search m'.2 = true
                                    ∧ Str.wqx_sub m'.2 = id) mapped) as Hwqx.
  { intros id. unfold bare_duplicate.
    assert (id ∈ wqx ↔ Exists (λ m', Str.wqx_search m'.2 = true
                                     ∧ Str.wqx_sub m'.2 = id) mapped) as Hin.
    { unfold wqx. rewrite elem_of_list_to_set, list_elem_of_fmap, Exists_exists.
      split.
      - intros (m & -> & [Hs Hm]%list_elem_of_filter).
        apply list_elem_of_fmap in Hm as (m' & -> & Hm'). by exists m'.
      - intros (m' & Hm' & Hs & <-). exists m'.2. split; [done|].
        apply list_elem_of_filter. split; [done|].
        apply list_elem_of_fmap. by exists m'. }
    destruct (Str.wqx_search id); simpl; [split; [by left|done]|].
    rewrite bool_decide_eq_false, Hin. split; [by right|].
    by intros [|]. }
  apply (seed_stations_run _ _ _ mapped).
  - clear Hvalues Hrun Hwqx.
    induction Hids as [|[station id] mapped Hid _ IH]; constructor; [|done].
    by split.
  - erewrite list_filter_iff; [exact Hvalues|]. intros m. apply Hwqx.
Qed.

End Pipelines.

(** ** What the methods leave alone *)

Create HintDb keeps.

Lemma same_configuration_refl (w : World) : same_configuration w w.
Proof. by repeat split. Qed.

Lemma same_configuration_trans (w1 w2 w3 : World) :
  same_configuration w1 w2 → same_configuration w2 w3 → same_configuration w1 w3.
Proof.
  intros (? & ? & ?) (? & ? & ?). repeat split; congruence.
Qed.

Lemma keeps_mret {A} (a : A) : keeps_configuration (mret a : M A).
Proof. intros w. apply same_configuration_refl. Qed.

Lemma keeps_raise {A} (e : exn) : keeps_configuration (raise e : M A).
Proof. intros w. apply same_configuration_refl. Qed.

Lemma keeps_lift {A} (r : result A) : keeps_configuration (lift r).
Proof. intros w. apply same_configuration_refl. Qed.

Lemma keeps_bind {A B} (m : M A) (f : A → M B) :
  keeps_configuration m → (∀ a, keeps_configuration (f a)) →
  keeps_configuration (m ≫= f).
Proof.
  intros Hm Hf w. unfold mbind, M_mbind, M_bind.
  specialize (Hm w). destruct (m w) as [w1 [a|e]]; [|done].
  eapply same_configuration_trans; [exact Hm | apply Hf].
Qed.

Lemma keeps_try_except {A} (m : M A) (handler : exn → M A) :
  keeps_configuration m → (∀ e, keeps_configuration (handler e)) →
  keeps_configuration (try_except m handler).
Proof.
  intros Hm Hh w. unfold try_except.
  specialize (Hm w). destruct (m w) as [w1 [a|e]]; [done|].
  eapply same_configuration_trans; [exact Hm | apply Hh].
Qed.

Lemma keeps_try_finally {A} (m : M A) (final : M unit) :
  keeps_configuration m → keeps_configuration final →
  keeps_configuration (try_finally m final).
Proof.
  intros Hm Hf w. unfold try_finally.
  specialize (Hm w). destruct (m w) as [w1 r].
  specialize (Hf w1). destruct (final w1) as [w2 [|]];
    by eapply same_configuration_trans.
Qed.

Lemma keeps_for_M {A} (body : A → M unit) (xs : list A) :
  (∀ x, keeps_configuration (body x)) → keeps_configuration (for_M body xs).
Proof.
  intros Hbody. induction xs as [|x xs IH]; simpl; [apply keeps_mret|].
  by apply keeps_bind.
Qed.

Lemma keeps_get_cursor : keeps_configuration get_cursor.
Proof. intros w. apply same_configuration_refl. Qed.

Lemma keeps_put_cursor (c : option Cursor) : keeps_configuration (put_cursor c).
Proof. by intros w. Qed.

Lemma keeps_get_db (key : string) : keeps_configuration (get_db key).
Proof.
  intros w. unfold get_db. destruct (db (self w) !! key);
    apply same_configuration_refl.
Qed.

Lemma keeps_get_folder (attribute : Program → option string) :
  keeps_configuration (get_folder attribute).
Proof.
  intros w. unfold get_folder. destruct (attribute (self w));
    apply same_configuration_refl.
Qed.

Lemma keeps_driver_call (driver : list call → call → option exn) (c : call) :
  keeps_configuration (driver_call driver c).
Proof. intros w. unfold driver_call. by destruct (driver (calls w) c). Qed.

Lemma keeps_effect (error : option exn) : keeps_configuration (effect error).
Proof. destruct error; [apply keeps_raise | apply keeps_mret]. Qed.

#[local] Hint Resolve keeps_mret keeps_raise keeps_lift keeps_get_cursor
  keeps_put_cursor keeps_get_db keeps_get_folder keeps_driver_call keeps_effect
  : keeps.

Ltac keeps :=
  repeat first
    [ progress auto with keeps
    | apply keeps_bind; [|intros ?]
    | apply keeps_try_except; [|intros ?]
    | apply keeps_try_finally
    | apply keeps_for_M; intros ?
    | match goal with
      | |- keeps_configuration (match ?x with _ => _ end) => destruct x
      | |- keeps_configuration (if ?b then _ else _) => destruct b
      end ].

Lemma keeps_open_cursor (driver : list call → call → option exn) :
  keeps_configuration (open_cursor driver).
Proof. unfold open_cursor. keeps. Qed.

Lemma keeps_on_cursor (driver : list call → call → option exn) (c : call) :
  keeps_configuration (on_cursor driver c).
Proof. unfold on_cursor. keeps. Qed.

Lemma keeps_del_cursor : keeps_configuration del_cursor.
Proof. unfold del_cursor. keeps. Qed.

Lemma keeps_discard_cursor : keeps_configuration discard_cursor.
Proof. unfold discard_cursor. keeps. Qed.

#[local] Hint Resolve keeps_open_cursor keeps_on_cursor keeps_del_cursor
  keeps_discard_cursor : keeps.

Lemma keeps_insert_rows (driver : list call → call → option exn)
    (rows : list (list string)) (insert_statement : string) :
  keeps_configuration (_insert_rows driver rows insert_statement).
Proof.
  unfold _insert_rows. apply keeps_bind; [auto with keeps|]. intros _.
  generalize 1%Z. induction rows as [|row rows IH]; intros i; simpl.
  { apply keeps_mret. }
  unfold try_execute. keeps.
Qed.

#[local] Hint Resolve keeps_insert_rows : keeps.

(** ** The update and the full load as a whole *)

Section Runs.

Context {F : Type}.
Variable float_truth : F → bool.
Variable float_str : F → string.
Variable to_utm : value F → value F → F * F.
Variable query_csv : string → list string → string → list (list string).
Variable driver : list call → call → option exn.
Variable Stations : gset string.
Variable fetchone : list call → option (list (value F)).
Variable fetchall : list call → list (list string).
Variable get_csv : string → option (list (list string)).
Variable format_date : value F → result string.
Variable now : string.
Context {Schema : Type}.
Variable schema_station schema_result : Schema.
Variable Caster_cast : gmap string (value F) → Schema → gmap string (value F).
Variable Normalizer_normalize_station : gmap string (value F) → gmap string (value F).
Variable Normalizer_normalize_sample : gmap string (value F) → gmap string (value F).
Variable ChargeBalancer_get_charge_balance :
  list (gmap string (value F)) → list (gmap string (value F)).
Variable Normalizer_reorder_filter :
  gmap string (value F) → Schema → list (string * value F).
Variable Caster_cast_for_sql : list (string * value F) → list (string * string).
Variable glob : string → list string.
Variable csv_lines : string → list (list string).
Variable sqlite_execute : string → option exn.
Variable os_remove : string → option exn.

Local Abbreviation Row := (gmap string (value F)).

Local Ltac run :=
  unfold mbind, mret, M_mbind, M_mret, M_bind, M_ret, raise, lift, try_except,
    get_cursor, put_cursor, get_db in *.

Lemma discard_cursor_run (w : World) : discard_cursor w = (set_cursor None w, Ok ()).
Proof.
  unfold discard_cursor. run. destruct (cursor (self w)) eqn:Hc; [done|].
  unfold set_cursor. destruct w as [[] ?]. simpl in *. by subst.
Qed.

Lemma try_finally_discard {A} (m : M A) (w : World) :
  try_finally m discard_cursor w = (set_cursor None (m w).1, (m w).2).
Proof.
  unfold try_finally. destruct (m w) as [w1 r]. by rewrite discard_cursor_run.
Qed.

(** X15. However an update ends, with or without an exception, the program
    has no cursor afterwards. *)
Theorem update_discards_cursor (w : World) :
  cursor (self (update float_truth float_str to_utm query_csv driver Stations
                  fetchone fetchall get_csv format_date now schema_station
                  schema_result Caster_cast Normalizer_normalize_station
                  Normalizer_normalize_sample ChargeBalancer_get_charge_balance
                  Normalizer_reorder_filter Caster_cast_for_sql w).1) = None.
Proof. unfold update. by rewrite try_finally_discard. Qed.

(** X16. [seed] on a program that has not both folders raises at once: no
    call reaches the driver and the program is as it was, its cursor
    included. With both folders the program has no cursor when [seed] ends,
    however it ends. *)
Theorem seed_guard_and_cursor (w : World) :
  (results_folder (self w) = None ∨ stations_folder (self w) = None →
   seed float_truth float_str to_utm query_csv driver schema_station
     schema_result Caster_cast Normalizer_normalize_station
     Normalizer_normalize_sample ChargeBalancer_get_charge_balance
     Normalizer_reorder_filter Caster_cast_for_sql glob csv_lines sqlite_execute
     os_remove w
   = (w, Raise (Exception
                  "You must pass a file location if you are seeding. Did you want to update?")))
  ∧ (is_Some (results_folder (self w)) → is_Some (stations_folder (self w)) →
     cursor (self (seed float_truth float_str to_utm query_csv driver
                     schema_station schema_result Caster_cast
                     Normalizer_normalize_station Normalizer_normalize_sample
                     ChargeBalancer_get_charge_balance Normalizer_reorder_filter
                     Caster_cast_for_sql glob csv_lines sqlite_execute os_remove
                     w).1) = None).
Proof.
  unfold seed. split.
  - intros [-> | Hst]; [done|]. rewrite Hst. by destruct (results_folder (self w)).
  - intros [rs ->] [st ->]. by rewrite try_finally_discard.
Qed.

(** A program constructed without a file location is one for updates:
    the constructor accepts it whatever the file system, and [seed] on it
    raises without a call on the driver. *)
Lemma init_for_update_cannot_seed (isdir : string → bool) (db : gmap string string)
    (received : list call) :
  ∃ program,
    __init__ isdir db None = Ok program
    ∧ seed float_truth float_str to_utm query_csv driver schema_station
        schema_result Caster_cast Normalizer_normalize_station
        Normalizer_normalize_sample ChargeBalancer_get_charge_balance
        Normalizer_reorder_filter Caster_cast_for_sql glob csv_lines
        sqlite_execute os_remove {| self := program; calls := received |}
      = ({| self := program; calls := received |},
         Raise (Exception
                  "You must pass a file location if you are seeding. Did you want to update?")).
Proof. by eexists. Qed.

(** X17. An update on a destination without a date of the last result.
    The cursor is there and the statement goes through; [fetchone] returns
    no row, a row of another width, or a date that is a false value. Then
    [update] raises ['No last updated date'], the statement of the date is
    the only call it adds, and the cursor is gone. *)
Theorem update_without_date (w w0 : World) :
  open_cursor driver w = (w0, Ok ()) →
  driver (calls w0) (Execute sql_max_sample_date) = None →
  match fetchone (calls w0 ++ [Execute sql_max_sample_date]) with
  | Some [date] => truthy float_truth date = false
  | _ => True
  end →
  update float_truth float_str to_utm query_csv driver Stations fetchone fetchall
    get_csv format_date now schema_station schema_result Caster_cast
    Normalizer_normalize_station Normalizer_normalize_sample
    ChargeBalancer_get_charge_balance Normalizer_reorder_filter
    Caster_cast_for_sql w
  = (set_cursor None (log_call (Execute sql_max_sample_date) w0),
     Raise (Exception "No last updated date")).
Proof.
  intros Hopen Hdrv Hdate. unfold update. rewrite try_finally_discard.
  unfold update_body. run.
  rewrite (most_recent_result_date_cases driver fetchone w w0 Hopen), Hdrv.
  destruct (fetchone _) as [[|date [|]]|]; try done.
  by rewrite Hdate.
Qed.

(** X18. An update for which the service returns nothing as results. The
    date of the last result is found; [HttpClient.get_csv] returns a false
    value for the url of the results. Then the grouping returns [None], and
    [update] raises [AttributeError] from [_remove_existing_results]; no
    statement but that of the date is executed, and the cursor is gone. *)
Theorem update_without_answer (w w0 : World) (date : value F) (url : string) :
  open_cursor driver w = (w0, Ok ()) →
  driver (calls w0) (Execute sql_max_sample_date) = None →
  fetchone (calls w0 ++ [Execute sql_max_sample_date]) = Some [date] →
  truthy float_truth date = true →
  _format_url float_truth format_date now wqp_url "Result" date None = Ok url →
  get_csv url = None →
  update float_truth float_str to_utm query_csv driver Stations fetchone fetchall
    get_csv format_date now schema_station schema_result Caster_cast
    Normalizer_normalize_station Normalizer_normalize_sample
    ChargeBalancer_get_charge_balance Normalizer_reorder_filter
    Caster_cast_for_sql w
  = (set_cursor None (log_call (Execute sql_max_sample_date) w0),
     Raise AttributeError).
Proof.
  intros Hopen Hdrv Hone Htrue Hurl Hcsv. unfold update.
  rewrite try_finally_discard. unfold update_body. run.
  rewrite (most_recent_result_date_cases driver fetchone w w0 Hopen), Hdrv, Hone.
  rewrite Htrue. simpl. rewrite Hurl, Hcsv. done.
Qed.

Lemma keeps_seed_stations (rows : list (etl_in F)) (header : option (list string))
    (wqx : option (gset string)) :
  keeps_configuration
    (_seed_stations float_truth float_str to_utm driver schema_station Caster_cast
       Normalizer_normalize_station Normalizer_reorder_filter Caster_cast_for_sql
       rows header wqx).
Proof. unfold _seed_stations. keeps. Qed.

Lemma keeps_seed_results (samples : list Row) :
  keeps_configuration
    (_seed_results float_truth float_str to_utm driver schema_result Caster_cast
       Normalizer_normalize_sample ChargeBalancer_get_charge_balance
       Normalizer_reorder_filter Caster_cast_for_sql samples).
Proof. unfold _seed_results. keeps. Qed.

#[local] Hint Resolve keeps_seed_stations keeps_seed_results : keeps.

Lemma keeps_seed_station_files (folder : string) :
  keeps_configuration
    (seed_station_files float_truth float_str to_utm query_csv driver
       schema_station Caster_cast Normalizer_normalize_station
       Normalizer_reorder_filter Caster_cast_for_sql glob csv_lines folder).
Proof. unfold seed_station_files. keeps. Qed.

Lemma keeps_seed_result_files (folder : string) :
  keeps_configuration
    (seed_result_files float_truth float_str to_utm query_csv driver
       schema_result Caster_cast Normalizer_normalize_sample
       ChargeBalancer_get_charge_balance Normalizer_reorder_filter
       Caster_cast_for_sql glob sqlite_execute os_remove folder).
Proof.
  unfold seed_result_files, _add_sample_index, seed_results_of. keeps.
Qed.

#[local] Hint Resolve keeps_seed_station_files keeps_seed_result_files : keeps.

Lemma keeps_seed :
  keeps_configuration
    (seed float_truth float_str to_utm query_csv driver schema_station
       schema_result Caster_cast Normalizer_normalize_station
       Normalizer_normalize_sample ChargeBalancer_get_charge_balance
       Normalizer_reorder_filter Caster_cast_for_sql glob csv_lines sqlite_execute
       os_remove).
Proof.
  intros w. unfold seed.
  destruct (results_folder (self w)); [|apply same_configuration_refl].
  destruct (stations_folder (self w)); [|apply same_configuration_refl].
  revert w. fold (keeps_configuration
                    (try_finally
                       (_seed_by_file float_truth float_str to_utm query_csv driver
                          schema_station schema_result Caster_cast
                          Normalizer_normalize_station Normalizer_normalize_sample
                          ChargeBalancer_get_charge_balance Normalizer_reorder_filter
                          Caster_cast_for_sql glob csv_lines sqlite_execute
                          os_remove) discard_cursor)).
  unfold _seed_by_file. keeps.
Qed.

Lemma keeps_update :
  keeps_configuration
    (update float_truth float_str to_utm query_csv driver Stations fetchone
       fetchall get_csv format_date now schema_station schema_result Caster_cast
       Normalizer_normalize_station Normalizer_normalize_sample
       ChargeBalancer_get_charge_balance Normalizer_reorder_filter
       Caster_cast_for_sql).
Proof.
  assert (keeps_configuration (fetch_one fetchone)) as Hone
    by (intros w; apply same_configuration_refl).
  assert (keeps_configuration (fetch_all fetchall)) as Hall
    by (intros w; apply same_configuration_refl).
  unfold update, update_body, _get_most_recent_result_date,
    _remove_existing_results, _get_unique_sample_ids, _find_new_station_ids,
    _remove_existing_wqx_station_ids, _get_unique_station_ids, update_stations,
    seed_new_stations.
  keeps.
Qed.

(** X19. The configuration is not touched. Neither [seed] nor [update]
    changes the connection settings or the two folders of the program,
    however they end: they change the cursor and talk to the driver. *)
Theorem seed_update_keep_configuration (w : World) :
  same_configuration w
    (seed float_truth float_str to_utm query_csv driver schema_station
       schema_result Caster_cast Normalizer_normalize_station
       Normalizer_normalize_sample ChargeBalancer_get_charge_balance
       Normalizer_reorder_filter Caster_cast_for_sql glob csv_lines sqlite_execute
       os_remove w).1
  ∧ same_configuration w
      (update float_truth float_str to_utm query_csv driver Stations fetchone
         fetchall get_csv format_date now schema_station schema_result
         Caster_cast Normalizer_normalize_station Normalizer_normalize_sample
         ChargeBalancer_get_charge_balance Normalizer_reorder_filter
         Caster_cast_for_sql w).1.
Proof. split; [apply keeps_seed | apply keeps_update]. Qed.

(** X20. The result files are looked for after the stations are seeded.
    The program has both folders and the station files go through; the
    folder of the results has no csv file. Then [seed] raises ['No csv files
    found.'] with every call of the station files made: what the station
    files inserted and committed stays. *)
Theorem seed_results_folder_checked_late (w w1 : World) (stations results : string) :
  stations_folder (self w) = Some stations →
  results_folder (self w) = Some results →
  seed_station_files float_truth float_str to_utm query_csv driver schema_station
    Caster_cast Normalizer_normalize_station Normalizer_reorder_filter
    Caster_cast_for_sql glob csv_lines stations w = (w1, Ok ()) →
  results ≠ "" →
  glob (Str.path_join results "*.csv") = [] →
  seed float_truth float_str to_utm query_csv driver schema_station schema_result
    Caster_cast Normalizer_normalize_station Normalizer_normalize_sample
    ChargeBalancer_get_charge_balance Normalizer_reorder_filter
    Caster_cast_for_sql glob csv_lines sqlite_execute os_remove w
  = (set_cursor None w1, Raise (Exception "No csv files found.")).
Proof.
  intros Hst Hrs Hrun Hne Hglob. unfold seed. rewrite Hst, Hrs.
  rewrite try_finally_discard. unfold _seed_by_file, get_folder. run.
  rewrite Hst, Hrun.
  destruct (keeps_seed_station_files stations w) as (_ & Hrs1 & _).
  rewrite Hrun in Hrs1. simpl in Hrs1. rewrite Hrs1, Hrs.
  unfold seed_result_files, _get_files. run.
  rewrite bool_decide_false by done. rewrite Hglob. done.
Qed.

End Runs.

(** ** The constructor, again *)

(** X21. When the constructor accepts a file location. For a location, the
    constructor returns a program exactly when [location/WQP] and
    [location/WQP/Results] are directories, and the program then has these
    two folders: [Results] and [Stations] under [location/WQP], the second
    whether it exists or not. *)
Theorem init_accepts_iff (isdir : string → bool) (db : gmap string string)
    (file_location : string) (program : Program) :
  let parent_folder := Str.path_join file_location datasource in
  __init__ isdir db (Some file_location) = Ok program
  ↔ isdir parent_folder = true
    ∧ isdir (Str.path_join parent_folder "Results") = true
    ∧ program = {| db := db;
                   results_folder := Some (Str.path_join parent_folder "Results");
                   stations_folder := Some (Str.path_join parent_folder "Stations");
                   cursor := None |}.
Proof.
  intros parent_folder.
  destruct (isdir parent_folder) eqn:Hparent.
  - rewrite (init_tests_results_only isdir db file_location Hparent).
    fold parent_folder.
    destruct (isdir (Str.path_join parent_folder "Results")).
    + split; [by intros [= <-] | by intros (_ & _ & ->)].
    + split; [done | by intros (_ & ? & _)].
  - unfold __init__. fold parent_folder. rewrite Hparent. simpl.
    split; [done | by intros (? & _)].
Qed.

(** ** File names *)

Lemma append_assoc (s t u : string) : (s +:+ t) +:+ u = s +:+ t +:+ u.
Proof. induction s as [|c s IH]; [done|]. rewrite !append_cons. by rewrite IH. Qed.

Lemma append_nil_r (s : string) : s +:+ "" = s.
Proof. induction s as [|c s IH]; [done|]. rewrite append_cons. by rewrite IH. Qed.

Lemma rev_app_append (s t : string) : String.rev_app s t = String.rev s +:+ t.
Proof.
  unfold String.rev. revert t. induction s as [|c s IH]; intros t; [done|].
  simpl. rewrite (IH (String c "")), IH, append_assoc. done.
Qed.

Lemma rev_cons (c : ascii) (s : string) :
  String.rev (String c s) = String.rev s +:+ String c "".
Proof. unfold String.rev at 1. simpl. apply rev_app_append. Qed.

Lemma rev_append (s t : string) : String.rev (s +:+ t) = String.rev t +:+ String.rev s.
Proof.
  induction s as [|c s IH].
  - rewrite append_nil. by rewrite append_nil_r.
  - rewrite append_cons, !rev_cons, IH. by rewrite append_assoc.
Qed.

Lemma rev_involutive (s : string) : String.rev (String.rev s) = s.
Proof.
  induction s as [|c s IH]; [done|].
  by rewrite rev_cons, rev_append, IH.
Qed.

Lemma has_char_append (c : ascii) (s t : string) :
  has_char c (s +:+ t) = has_char c s || has_char c t.
Proof.
  induction s as [|a s IH]; [done|]. rewrite append_cons. simpl.
  by rewrite IH, orb_assoc.
Qed.

Lemma has_char_rev (c : ascii) (s : string) :
  has_char c (String.rev s) = has_char c s.
Proof.
  induction s as [|a s IH]; [done|].
  rewrite rev_cons, has_char_append, IH. simpl.
  rewrite orb_false_r. apply orb_comm.
Qed.

Lemma take_until_absent (sep : ascii) (s : string) :
  has_char sep s = false → Str.take_until sep s = (s, None).
Proof.
  induction s as [|a s IH]; [done|]. simpl.
  intros [Ha Hs]%orb_false_iff. rewrite Ha, (IH Hs). done.
Qed.

Lemma take_until_first (sep : ascii) (s t : string) :
  has_char sep s = false →
  Str.take_until sep (s +:+ String sep t) = (s, Some t).
Proof.
  induction s as [|a s IH].
  - intros _. rewrite append_nil. simpl. by rewrite Ascii.eqb_refl.
  - rewrite append_cons. simpl. intros [Ha Hs]%orb_false_iff.
    rewrite Ha, (IH Hs). done.
Qed.

Lemma all_dots_has_char (s : string) :
  s ≠ "" → has_char "." s = false → Str.all_dots s = false.
Proof.
  destruct s as [|a s]; [done|]. simpl. intros _ [Ha _]%orb_false_iff.
  by rewrite Ha.
Qed.

Lemma substring_prefix (s t : string) :
  String.substring 0 (String.length s) (s +:+ t) = s.
Proof.
  induction s as [|a s IH]; [by destruct t|].
  rewrite append_cons. simpl. by rewrite IH.
Qed.

Lemma length_append (s t : string) :
  String.length (s +:+ t) = (String.length s + String.length t)%nat.
Proof.
  induction s as [|a s IH]; [done|]. rewrite append_cons. simpl. by rewrite IH.
Qed.

(** X22. The table of a csv file. For a file [name.csv] in a folder, where
    [name] is not empty and has neither a slash nor a dot, the name that the
    queries use for the table is [name], and so is the name in the
    statement of [_add_sample_index]. *)
Theorem file_name_of_csv (folder name : string) :
  name ≠ "" →
  has_char "/" name = false →
  has_char "." name = false →
  let file_path := folder +:+ "/" +:+ name +:+ ".csv" in
  _get_file_name_without_extension file_path = name
  ∧ but_last4 (Str.basename file_path) = name.
Proof.
  intros Hname Hslash Hdot file_path.
  assert (Str.basename file_path = name +:+ ".csv") as Hbase.
  { unfold Str.basename, file_path.
    rewrite (rev_append folder), (rev_append "/").
    change (String.rev "/") with "/".
    rewrite (append_assoc (String.rev (name +:+ ".csv")) "/").
    change ("/" +:+ String.rev folder) with (String "/" (String.rev folder)).
    rewrite take_until_first.
    - simpl. apply rev_involutive.
    - by rewrite has_char_rev, has_char_append, Hslash. }
  split.
  - unfold _get_file_name_without_extension. rewrite Hbase.
    unfold Str.splitext_root. rewrite rev_append.
    change (String.rev ".csv") with ("vsc" +:+ String "." "").
    rewrite append_assoc.
    change (String "." "" +:+ String.rev name) with (String "." (String.rev name)).
    rewrite take_until_first by done.
    rewrite all_dots_has_char.
    + apply rev_involutive.
    + intros Hrev. apply Hname. by rewrite <- (rev_involutive name), Hrev.
    + by rewrite has_char_rev.
  - rewrite Hbase. unfold but_last4. rewrite length_append. simpl.
    replace (String.length name + 4 - 4)%nat with (String.length name) by lia.
    apply substring_prefix.
Qed.

(** ** Further examples *)

(** X2 on the id of a station of the tests. *)
Lemma wqx_sub_marked_witness :
  Str.wqx_sub ("UTAHDWQ" +:+ "_WQX-" +:+ "4904410")
  = "UTAHDWQ" +:+ "-" +:+ Str.wqx_sub "4904410"
  ∧ Str.wqx_search ("UTAHDWQ" +:+ "_WQX-" +:+ "4904410") = true.
Proof. apply (wqx_sub_marked "UTAHDWQ" "4904410"). reflexivity. Defined.

(** X3 on a line with a column that the mapping does not know. *)
Lemma etl_column_names_row_witness :
  ∃ row : gmap string (value Z),
    _etl_column_names (AList [VStr "UTAHDWQ-7"; VStr "x"]) (Some station_config)
      (Some ["MonitoringLocationIdentifier"; "Unknown"]) = Ok (EDict row)
    ∧ (∀ i key cell,
         ["MonitoringLocationIdentifier"; "Unknown"] !! i = Some key →
         [VStr "UTAHDWQ-7"; VStr "x"] !! i = Some cell →
         row !! mapped_name station_config key = Some cell)
    ∧ dom row
      = list_to_set
          (take (length [VStr (F:=Z) "UTAHDWQ-7"; VStr "x"])
             (mapped_name station_config
                <$> ["MonitoringLocationIdentifier"; "Unknown"])).
Proof.
  apply (etl_column_names_row (F:=Z) station_config
           ["MonitoringLocationIdentifier"; "Unknown"]
           [VStr "UTAHDWQ-7"; VStr "x"]).
  - done.
  - done.
  - intros t. simpl. discriminate.
  - compute_done.
Defined.

(** X5 on an answer of three lines, two of one sample. *)
Lemma group_rows_by_id_groups_witness :
  ∃ groups,
    _group_rows_by_id (Some (Trial.result_header :: Trial.result_lines)) None
    = Ok (Some groups)
    ∧ (∀ sample_id,
         groups !! sample_id
         = match (filter (λ m, m.2 = sample_id) Trial.result_rows).*1 with
           | [] => None
           | rows => Some rows
           end)
    ∧ dom groups = list_to_set Trial.result_rows.*2.
Proof.
  apply (group_rows_by_id_groups Trial.result_header Trial.result_lines None
           Trial.result_rows).
  repeat constructor; by vm_compute.
Defined.

(** The groups of that answer. *)
Example group_rows_by_id_result :
  _group_rows_by_id (Some (Trial.result_header :: Trial.result_lines)) None
  = Ok (Some Trial.result_groups).
Proof. by vm_compute. Qed.

(** X6 on three stations as dictionaries, two of them wanted. *)
Lemma extract_stations_by_id_filter_witness :
  _extract_stations_by_id (Some (ADict <$> Trial.station_pairs.*1))
    ["UTAHDWQ_WQX-1"; "UTAHDWQ-2"] None
  = Ok (Some (filter (λ d, station_wanted ["UTAHDWQ_WQX-1"; "UTAHDWQ-2"] d = true)
                Trial.station_pairs.*1)).
Proof.
  apply (extract_stations_by_id_filter (ADict <$> Trial.station_pairs.*1)
           ["UTAHDWQ_WQX-1"; "UTAHDWQ-2"] None Trial.station_pairs.*1).
  repeat constructor; by eexists.
Defined.

(** X7 on the stations extracted there. *)
Lemma extracted_stations_reconcile_witness :
  Forall (λ d, ∃ id, d !! "StationId" = Some (VStr id)
                     ∧ id ∈ ["UTAHDWQ_WQX-1"; "UTAHDWQ-2"])
    [Trial.station "UTAHDWQ_WQX-1"; Trial.station "UTAHDWQ-2"]
  ∧ ∃ wqx,
      _get_wqx_duplicate_ids Trial.no_rows
        (SrcStations [Trial.station "UTAHDWQ_WQX-1"; Trial.station "UTAHDWQ-2"])
      = Ok wqx
      ∧ ∀ x, x ∈ wqx →
             ∃ id, id ∈ ["UTAHDWQ_WQX-1"; "UTAHDWQ-2"] ∧ x = Str.wqx_sub id.
Proof.
  apply (extracted_stations_reconcile Trial.no_rows
           (ADict <$> Trial.station_pairs.*1) ["UTAHDWQ_WQX-1"; "UTAHDWQ-2"] None).
  by vm_compute.
Defined.

(** X8 on two rows and a program without a cursor. *)
Lemma insert_rows_trace_witness :
  ∃ w',
    _insert_rows Sample.quiet [["'a'"]; ["'b'"]] "insert into Stations values ({})"
      Sample.world = (w', Ok ())
    ∧ cursor (self w') = Some PyodbcCursor
    ∧ calls w'
      = (calls Sample.world
           ++ match cursor (self Sample.world) with
              | Some _ => []
              | None => [Connect "DSN=ugs"]
              end
           ++ sink_trace 1 ["insert into Stations values ('a')";
                            "insert into Stations values ('b')"])%list.
Proof.
  apply (insert_rows_trace Sample.quiet "insert into Stations values ({})"
           [["'a'"]; ["'b'"]]
           ["insert into Stations values ('a')"; "insert into Stations values ('b')"]
           "DSN=ugs" Sample.world).
  - reflexivity.
  - by vm_compute.
  - repeat constructor.
Defined.

(** The 4999th row of a call is followed by the commit of the batch and the
    commit of the turn. *)
Example sink_trace_batch :
  sink_trace 4999 ["s"] = [Execute "s"; Commit; Commit]
  ∧ sink_trace 1 ["s"] = [Execute "s"; Commit].
Proof. split; reflexivity. Qed.

(** X9 on the groups of the answer above, of which the destination
    reports [s1] as new. *)
Lemma remove_existing_results_kept_witness :
  ∃ w' kept,
    _remove_existing_results Sample.quiet Trial.new_s1 (Some Trial.result_groups)
      Sample.world = (w', Ok kept)
    ∧ kept ⊆ Trial.result_groups
    ∧ ∀ sample_id rows,
        kept !! sample_id = Some rows
        ↔ Trial.result_groups !! sample_id = Some rows
          ∧ sample_id ∈ concat (Trial.new_s1 (calls w')).
Proof.
  apply (remove_existing_results_kept Sample.quiet Trial.new_s1
           Trial.result_groups Sample.world).
  - reflexivity.
  - right. by eexists.
Defined.

(** X10 on those groups and a destination that stores [UTAHDWQ-1]. *)
Lemma find_new_station_ids_new_witness :
  ∃ w' station_ids,
    _find_new_station_ids Sample.quiet {["UTAHDWQ-1"]} Trial.result_groups
      Sample.world = (w', Ok station_ids)
    ∧ NoDup station_ids
    ∧ (∀ x, x ∈ station_ids
            ↔ (x ∉ ({["UTAHDWQ-1"]} : gset string))
              ∧ ∃ sample_id group row,
                  Trial.result_groups !! sample_id = Some group ∧ row ∈ group
                  ∧ row !! "StationId" = Some (VStr x))
    ∧ (Trial.result_groups = ∅ → w' = Sample.world).
Proof.
  apply (find_new_station_ids_new Sample.quiet {["UTAHDWQ-1"]}
           Trial.result_groups Sample.world).
  - reflexivity.
  - right. by eexists.
  - apply map_Forall_to_list. repeat constructor; by eexists.
Defined.

(** The new station of those groups. *)
Example find_new_station_ids_result :
  (_find_new_station_ids Sample.quiet {["UTAHDWQ-1"]} Trial.result_groups
     Sample.world).2 = Ok ["UTAHDWQ_WQX-2"].
Proof. by vm_compute. Qed.

(** X11 on a program without a cursor. *)
Lemma most_recent_result_date_run_witness :
  _get_most_recent_result_date Sample.quiet Trial.one_date Sample.world
  = match Sample.quiet (calls (set_cursor (Some PyodbcCursor)
                                 (log_call (Connect "DSN=ugs") Sample.world)))
            (Execute sql_max_sample_date) with
    | Some e =>
        (set_cursor None
           (log_call (Execute sql_max_sample_date)
              (set_cursor (Some PyodbcCursor)
                 (log_call (Connect "DSN=ugs") Sample.world))), Raise e)
    | None =>
        (log_call (Execute sql_max_sample_date)
           (set_cursor (Some PyodbcCursor)
              (log_call (Connect "DSN=ugs") Sample.world)),
         Ok match Trial.one_date
                    (calls (set_cursor (Some PyodbcCursor)
                              (log_call (Connect "DSN=ugs") Sample.world))
                       ++ [Execute sql_max_sample_date]) with
            | Some [date] => Some date
            | _ => None
            end)
    end.
Proof.
  apply (most_recent_result_date_run Sample.quiet Trial.one_date Sample.world).
  by vm_compute.
Defined.

(** X12 on the group of the sample [s1] and a program without a cursor. *)
Lemma seed_results_trace_witness :
  let samples := [Trial.result_row "s1" "UTAHDWQ-1" "pH";
                  Trial.result_row "s1" "UTAHDWQ-1" "Magnesium"] in
  let updated :=
    (λ sample, <["DataSource" := VStr datasource]> (Sample.cast sample ()))
      <$> samples in
  let normalized := Trial.normalize_sample <$> updated in
  let statement sample :=
    result_insert_statement
      (Str.join "," (Sample.cast_for_sql (Sample.reorder_filter sample ())).*2) in
  ∃ w',
    _seed_results Sample.float_truth Sample.float_str Sample.to_utm Sample.quiet ()
      Sample.cast Trial.normalize_sample Trial.get_charge_balance
      Sample.reorder_filter Sample.cast_for_sql samples Sample.world
    = (w', Ok ())
    ∧ cursor (self w') = Some PyodbcCursor
    ∧ calls w'
      = (calls Sample.world
           ++ match cursor (self Sample.world) with
              | Some _ => []
              | None => [Connect "DSN=ugs"]
              end
           ++ sink_trace 1
                ((statement <$> normalized)
                   ++ (statement <$> Trial.get_charge_balance normalized)))%list.
Proof.
  intros samples updated.
  apply (seed_results_trace Sample.float_truth Sample.float_str Sample.to_utm
           Sample.quiet () Sample.cast Trial.normalize_sample
           Trial.get_charge_balance Sample.reorder_filter Sample.cast_for_sql
           samples updated "DSN=ugs" Sample.world).
  - done.
  - reflexivity.
  - by vm_compute.
Defined.

(** The rows the sink gets for that group: the two samples, then the charge
    balance row. *)
Example seed_results_rows :
  result_values Sample.float_truth Sample.float_str Sample.to_utm ()
    Sample.cast Trial.normalize_sample Trial.get_charge_balance
    Sample.reorder_filter Sample.cast_for_sql
    [Trial.result_row "s1" "UTAHDWQ-1" "pH";
     Trial.result_row "s1" "UTAHDWQ-1" "Magnesium"]
  = Ok [["'UTAHDWQ-1'"; "'WQP'"]; ["'UTAHDWQ-1'"; "'WQP'"];
        ["'Charge Balance'"; "'WQP'"]].
Proof. by vm_compute. Qed.

(** X13 on a group whose second sample comes out of the caster without
    coordinates. *)
Lemma seed_results_missing_coordinate_witness :
  ∃ key,
    _seed_results Sample.float_truth Sample.float_str Sample.to_utm Sample.quiet ()
      Trial.cast_as_is Trial.normalize_sample Trial.get_charge_balance
      Sample.reorder_filter Sample.cast_for_sql
      [Sample.row_valid; Trial.result_row "s1" "UTAHDWQ-1" "pH"] Sample.world
    = (Sample.world, Raise (KeyError key)).
Proof.
  apply (seed_results_missing_coordinate Sample.float_truth Sample.float_str
           Sample.to_utm Sample.quiet () Trial.cast_as_is Trial.normalize_sample
           Trial.get_charge_balance Sample.reorder_filter Sample.cast_for_sql
           [Sample.row_valid; Trial.result_row "s1" "UTAHDWQ-1" "pH"]
           (Trial.result_row "s1" "UTAHDWQ-1" "pH") Sample.world).
  - right. left.
  - left. by vm_compute.
Defined.

(** X14 on a marker-suffixed station, its bare form and another station:
    the bare form [UTAHDWQ-1] does not reach the sink. *)
Lemma seed_new_stations_pairs_witness :
  seed_new_stations Sample.float_truth Sample.float_str Sample.to_utm
    Trial.no_rows Sample.quiet () Sample.cast Sample.normalize_station
    Sample.reorder_filter Sample.cast_for_sql Trial.station_pairs.*1
    ["StationId"] Sample.world
  = _insert_rows Sample.quiet
      [["'UTAHDWQ_WQX-1'"; "'WQP'"]; ["'UTAHDWQ-2'"; "'WQP'"]]
      sql_station_insert Sample.world.
Proof.
  apply (seed_new_stations_pairs Sample.float_truth Sample.float_str Sample.to_utm
           Trial.no_rows Sample.quiet () Sample.cast Sample.normalize_station
           Sample.reorder_filter Sample.cast_for_sql Trial.station_pairs
           ["StationId"] [["'UTAHDWQ_WQX-1'"; "'WQP'"]; ["'UTAHDWQ-2'"; "'WQP'"]]
           Sample.world).
  - repeat constructor.
  - by vm_compute.
Defined.

(** X16 on a program built for an update and on one built for seeding. *)
Lemma seed_guard_and_cursor_witness :
  seed Sample.float_truth Sample.float_str Sample.to_utm Trial.no_rows
    Sample.quiet () () Sample.cast Sample.normalize_station Trial.normalize_sample
    Trial.get_charge_balance Sample.reorder_filter Sample.cast_for_sql Trial.glob
    Trial.csv_lines Trial.no_error Trial.no_error Sample.world
  = (Sample.world,
     Raise (Exception
              "You must pass a file location if you are seeding. Did you want to update?"))
  ∧ cursor (self (seed Sample.float_truth Sample.float_str Sample.to_utm
                    Trial.no_rows Sample.quiet () () Sample.cast
                    Sample.normalize_station Trial.normalize_sample
                    Trial.get_charge_balance Sample.reorder_filter
                    Sample.cast_for_sql Trial.glob Trial.csv_lines Trial.no_error
                    Trial.no_error Trial.seeding_world).1) = None.
Proof.
  split.
  - apply (seed_guard_and_cursor Sample.float_truth Sample.float_str Sample.to_utm
             Trial.no_rows Sample.quiet () () Sample.cast Sample.normalize_station
             Trial.normalize_sample Trial.get_charge_balance Sample.reorder_filter
             Sample.cast_for_sql Trial.glob Trial.csv_lines Trial.no_error
             Trial.no_error Sample.world).
    by left.
  - apply (seed_guard_and_cursor Sample.float_truth Sample.float_str Sample.to_utm
             Trial.no_rows Sample.quiet () () Sample.cast Sample.normalize_station
             Trial.normalize_sample Trial.get_charge_balance Sample.reorder_filter
             Sample.cast_for_sql Trial.glob Trial.csv_lines Trial.no_error
             Trial.no_error Trial.seeding_world); by eexists.
Defined.

(** X17 on a destination without results. *)
Lemma update_without_date_witness :
  update Sample.float_truth Sample.float_str Sample.to_utm Trial.no_rows
    Sample.quiet ∅ Trial.no_date Trial.new_s1 Trial.silent Trial.format_date
    Trial.now () () Sample.cast Sample.normalize_station Trial.normalize_sample
    Trial.get_charge_balance Sample.reorder_filter Sample.cast_for_sql Sample.world
  = (set_cursor None
       (log_call (Execute sql_max_sample_date)
          (set_cursor (Some PyodbcCursor)
             (log_call (Connect "DSN=ugs") Sample.world))),
     Raise (Exception "No last updated date")).
Proof.
  apply (update_without_date Sample.float_truth Sample.float_str Sample.to_utm
           Trial.no_rows Sample.quiet ∅ Trial.no_date Trial.new_s1 Trial.silent
           Trial.format_date Trial.now () () Sample.cast Sample.normalize_station
           Trial.normalize_sample Trial.get_charge_balance Sample.reorder_filter
           Sample.cast_for_sql Sample.world).
  - by vm_compute.
  - reflexivity.
  - exact I.
Defined.

(** X18 on a service that returns nothing. *)
Lemma update_without_answer_witness :
  update Sample.float_truth Sample.float_str Sample.to_utm Trial.no_rows
    Sample.quiet ∅ Trial.one_date Trial.new_s1 Trial.silent Trial.format_date
    Trial.now () () Sample.cast Sample.normalize_station Trial.normalize_sample
    Trial.get_charge_balance Sample.reorder_filter Sample.cast_for_sql Sample.world
  = (set_cursor None
       (log_call (Execute sql_max_sample_date)
          (set_cursor (Some PyodbcCursor)
             (log_call (Connect "DSN=ugs") Sample.world))),
     Raise AttributeError).
Proof.
  apply (update_without_answer Sample.float_truth Sample.float_str Sample.to_utm
           Trial.no_rows Sample.quiet ∅ Trial.one_date Trial.new_s1 Trial.silent
           Trial.format_date Trial.now () () Sample.cast Sample.normalize_station
           Trial.normalize_sample Trial.get_charge_balance Sample.reorder_filter
           Sample.cast_for_sql Sample.world _ (VStr "2015-01-01")
           ("http://www.waterqualitydata.us/Result/search?sampleMedia=Water"
            +:+ "&startDateLo=2015-01-01&startDateHi=01-01-2016&"
            +:+ "bBox=-115%2C35.5%2C-108%2C42.5&mimeType=csv")).
  - by vm_compute.
  - reflexivity.
  - reflexivity.
  - reflexivity.
  - by vm_compute.
  - reflexivity.
Defined.

(** X20 on a folder with one station file of one station and no result
    file: the station is inserted and committed, then [seed] raises. *)
Lemma seed_results_folder_checked_late_witness :
  seed Sample.float_truth Sample.float_str Sample.to_utm Trial.no_rows
    Sample.quiet () () Sample.cast Sample.normalize_station Trial.normalize_sample
    Trial.get_charge_balance Sample.reorder_filter Sample.cast_for_sql Trial.glob
    Trial.csv_lines Trial.no_error Trial.no_error Trial.seeding_world
  = (set_cursor None
       {| self := {| db := {["connection_string" := "DSN=ugs"]};
                     results_folder := Some "data/WQP/Results";
                     stations_folder := Some "data/WQP/Stations";
                     cursor := Some PyodbcCursor |};
          calls := [Connect "DSN=ugs";
                    Execute (default "" (Str.format sql_station_insert
                                           ["'UTAHDWQ-7','WQP'"]));
                    Commit] |},
     Raise (Exception "No csv files found.")).
Proof.
  apply (seed_results_folder_checked_late Sample.float_truth Sample.float_str
           Sample.to_utm Trial.no_rows Sample.quiet () () Sample.cast
           Sample.normalize_station Trial.normalize_sample
           Trial.get_charge_balance Sample.reorder_filter Sample.cast_for_sql
           Trial.glob Trial.csv_lines Trial.no_error Trial.no_error
           Trial.seeding_world _ "data/WQP/Stations" "data/WQP/Results").
  - reflexivity.
  - reflexivity.
  - by vm_compute.
  - done.
  - by vm_compute.
Defined.

(** X22 on the station file of the tests. *)
Lemma file_name_of_csv_witness :
  _get_file_name_without_extension
    ("tests/data/WQP" +:+ "/" +:+ "wqxids" +:+ ".csv") = "wqxids"
  ∧ but_last4 (Str.basename ("tests/data/WQP" +:+ "/" +:+ "wqxids" +:+ ".csv"))
    = "wqxids".
Proof.
  apply (file_name_of_csv "tests/data/WQP" "wqxids"); [done | reflexivity..].
Defined.
